(** * Verification of [mcp/server.py]

    A shallow embedding of the developer-workflow helper: the restricted
    arithmetic evaluator ([_eval], [calc]), the process runner ([_run]) and
    the JaCoCo coverage aggregation ([maven_test_and_report],
    [uncovered_classes]), with the properties its specification states.

    Python exceptions are values of [exn]; a function that may raise returns
    a [result].  Python [int] is [Z]; Python [float] is the binary64
    primitive [float] with IEEE round-to-nearest-even arithmetic. *)

From Stdlib Require Import ZArith QArith Qround List String Ascii Bool Lia Floats.
From stdpp Require Import base option list strings gmap.

Set Warnings "-register-all".

Local Open Scope string_scope.
Local Open Scope Z_scope.

(** ** Exceptions and results *)

Inductive exn : Type :=
| ValueError (msg : string)
| KeyError (key : string)
| ZeroDivisionError
| OverflowError
| TypeError
| RuntimeError (msg : string)
| ParseError
| OSError.

Inductive result (A : Type) : Type :=
| Ok (a : A)
| Raise (e : exn).
Arguments Ok {A} a.
Arguments Raise {A} e.

#[global] Instance result_ret : MRet result := fun A a => Ok a.
#[global] Instance result_bind : MBind result := fun A B f m =>
  match m with
  | Ok a => f a
  | Raise e => Raise e
  end.

Definition raises {A} (m : result A) : Prop := exists e, m = Raise e.
Definition returns {A} (m : result A) : Prop := exists a, m = Ok a.

(** A computation that returns, or fails on the arithmetic alone. *)
Definition benign {A} (m : result A) : Prop :=
  returns m \/ m = Raise ZeroDivisionError \/ m = Raise OverflowError.

Ltac unbind := unfold mbind, result_bind, mret, result_ret in *.

(** ** The numbers of the Python runtime *)

Module PyNum.

(** [float(n)] for an [int]: correctly rounded, [OverflowError] beyond the
    binary64 range. *)
Definition float_of_int (n : Z) : result float :=
  match binary_normalize prec emax n 0 false with
  | S754_infinity _ => Raise OverflowError
  | sf => Ok (SF2Prim sf)
  end.

(** [a / b] on two [int]s: the correctly rounded quotient; the sign of a
    zero result is the exclusive or of the operands' signs. *)
Definition int_truediv (a b : Z) : result float :=
  if b =? 0 then Raise ZeroDivisionError
  else
    let negate := xorb (a <? 0) (b <? 0) in
    if a =? 0 then Ok (SF2Prim (S754_zero negate))
    else
      let '(q, e, l) := SFdiv_core_binary prec emax (Z.abs a) 0 (Z.abs b) 0 in
      match binary_round_aux prec emax negate q e l with
      | S754_infinity _ => Raise OverflowError
      | sf => Ok (SF2Prim sf)
      end.

(** [x / y] on two [float]s. *)
Definition float_truediv (x y : float) : result float :=
  if PrimFloat.eqb y 0%float then Raise ZeroDivisionError
  else Ok (x / y)%float.

(** Nearest integer to [n / d] for [0 < d], ties to even. *)
Definition div_half_even (n d : Z) : Z :=
  let q := n / d in
  let r := n mod d in
  match (2 * r ?= d) with
  | Lt => q
  | Gt => q + 1
  | Eq => if Z.even q then q else q + 1
  end.

(** [round(x, 2)] on a [float]: the exact binary value is rounded to two
    decimals (ties to even), and that decimal is read back as the nearest
    binary64 number.  Zeros, infinities and NaN are returned unchanged. *)
Definition round2 (x : float) : float :=
  match Prim2SF x with
  | S754_finite s m e =>
      if 0 <=? e then x
      else
        let n := div_half_even (Z.pos m * 100) (2 ^ (- e)) in
        if n =? 0 then SF2Prim (S754_zero s)
        else
          let '(q, e', l) := SFdiv_core_binary prec emax n 0 100 0 in
          SF2Prim (binary_round_aux prec emax s q e' l)
  | _ => x
  end.

(** Decimal digits and the spaces [int(str)] strips. *)
Definition digit_val (c : ascii) : option Z :=
  let n := Z.of_N (N_of_ascii c) in
  if (48 <=? n) && (n <=? 57) then Some (n - 48) else None.

Definition is_space (c : ascii) : bool :=
  let n := Z.of_N (N_of_ascii c) in
  ((9 <=? n) && (n <=? 13)) || (n =? 32).

Fixpoint lstrip (s : string) : string :=
  match s with
  | String c s' => if is_space c then lstrip s' else s
  | EmptyString => s
  end.

Fixpoint rstrip (s : string) : string :=
  match s with
  | String c s' =>
      match rstrip s' with
      | EmptyString => if is_space c then EmptyString else String c EmptyString
      | r => String c r
      end
  | EmptyString => EmptyString
  end.

(** Digits with single underscores between them; [acc] is the value so far,
    [n] the number of digits read, [prev] whether the previous character was
    a digit. *)
Fixpoint digits (s : string) (acc : Z) (n : Z) (prev : bool) : option (Z * Z) :=
  match s with
  | EmptyString => if prev then Some (acc, n) else None
  | String c s' =>
      match digit_val c with
      | Some d => digits s' (10 * acc + d) (n + 1) true
      | None =>
          if (Ascii.eqb c "_") && prev then digits s' acc n false else None
      end
  end.

Definition int_max_str_digits : Z := 4300.

Definition invalid_literal : exn := ValueError "invalid literal for int() with base 10".

(** [int(s)] for a [str] of ASCII characters, with the default limit on
    the number of digits.  The messages of the [ValueError]s are shortened:
    Python appends the offending literal or its length. *)
Definition int_of_str (s : string) : result Z :=
  let body := rstrip (lstrip s) in
  let '(neg, ds) :=
    match body with
    | String "-" r => (true, r)
    | String "+" r => (false, r)
    | _ => (false, body)
    end in
  match digits ds 0 0 false with
  | Some (v, n) =>
      if int_max_str_digits <? n
      then Raise (ValueError "Exceeds the limit (4300 digits) for integer string conversion")
      else Ok (if neg then - v else v)
  | None => Raise invalid_literal
  end.

End PyNum.

(** ** The restricted arithmetic evaluator *)

Module Calc.
Import PyNum.

(** The operator classes of Python's [ast] module. *)
Inductive operator : Type :=
| Add | Sub | Mult | MatMult | Div | Mod | Pow
| LShift | RShift | BitOr | BitXor | BitAnd | FloorDiv.

Inductive unaryop : Type := Invert | Not | UAdd | USub.

Inductive boolop : Type := And | Or.

(** What [type(node.op)] can be: the key type of [_ALLOWED]. *)
Inductive opclass : Type :=
| BinCls (o : operator)
| UnCls (o : unaryop).

#[global] Instance operator_eq_dec : EqDecision operator.
Proof. solve_decision. Defined.
#[global] Instance unaryop_eq_dec : EqDecision unaryop.
Proof. solve_decision. Defined.
#[global] Instance opclass_eq_dec : EqDecision opclass.
Proof. solve_decision. Defined.

Definition opclass_name (k : opclass) : string :=
  match k with
  | BinCls Add => "Add" | BinCls Sub => "Sub" | BinCls Mult => "Mult"
  | BinCls MatMult => "MatMult" | BinCls Div => "Div" | BinCls Mod => "Mod"
  | BinCls Pow => "Pow" | BinCls LShift => "LShift" | BinCls RShift => "RShift"
  | BinCls BitOr => "BitOr" | BinCls BitXor => "BitXor" | BinCls BitAnd => "BitAnd"
  | BinCls FloorDiv => "FloorDiv"
  | UnCls Invert => "Invert" | UnCls Not => "Not"
  | UnCls UAdd => "UAdd" | UnCls USub => "USub"
  end.

(** The value of a [Constant] node.  An imaginary literal such as [2j]
    carries its [float] magnitude. *)
Inductive constant : Type :=
| CInt (n : Z)
| CFloat (x : float)
| CImag (y : float)
| CStr (s : string)
| CBytes (s : string)
| CBool (b : bool)
| CNone
| CEllipsis.

(** Expression nodes, as [ast.parse(expression, mode="eval").body] gives
    them.  [Other] stands for the remaining node classes (lambda, if
    expression, comprehension, subscript, container display, ...), named by
    their class. *)
Inductive expr : Type :=
| Constant (value : constant)
| UnaryOp (op : unaryop) (operand : expr)
| BinOp (left : expr) (op : operator) (right : expr)
| BoolOp (op : boolop) (values : list expr)
| Compare (left : expr) (comparators : list expr)
| Call (func : expr) (args : list expr)
| Attribute (value : expr) (attr : string)
| Name (id : string)
| Other (cls : string).

(** The parts of the numeric runtime that are outside this program and
    outside IEEE arithmetic: the platform's [pow] behind [float.__pow__]
    (which yields a complex number for a negative base with a fractional
    exponent) and complex arithmetic. *)
Inductive arith_exn : Type := ZeroDivision | Overflow.

Definition exn_of_arith (e : arith_exn) : exn :=
  match e with
  | ZeroDivision => ZeroDivisionError
  | Overflow => OverflowError
  end.

Record NumLib : Type := {
  complex : Type;
  float_pow : float -> float -> arith_exn + (float + complex);
  complex_of_float : float -> complex;
  complex_imag : float -> complex;
  complex_binop : operator -> complex -> complex -> arith_exn + complex;
  complex_neg : complex -> complex;
}.

Definition lift {A} (r : arith_exn + A) : result A :=
  match r with
  | inl e => Raise (exn_of_arith e)
  | inr a => Ok a
  end.

Section Evaluator.
Context (rt : NumLib).

Inductive value : Type :=
| VInt (n : Z)
| VFloat (x : float)
| VComplex (c : complex rt).

(** Coercions of the numeric tower. *)
Definition to_float (v : value) : result float :=
  match v with
  | VInt n => float_of_int n
  | VFloat x => Ok x
  | VComplex _ => Raise TypeError
  end.

Definition to_complex (v : value) : result (complex rt) :=
  match v with
  | VInt n => x ← float_of_int n; Ok (complex_of_float rt x)
  | VFloat x => Ok (complex_of_float rt x)
  | VComplex c => Ok c
  end.

Definition is_complex (v : value) : bool :=
  match v with VComplex _ => true | _ => false end.

(** A binary operator on mixed operands: exact on two [int]s, complex as
    soon as one operand is, IEEE otherwise. *)
Definition arith (o : operator) (on_int : Z -> Z -> result value)
    (on_float : float -> float -> result value) (a b : value) : result value :=
  match a, b with
  | VInt m, VInt n => on_int m n
  | _, _ =>
      if is_complex a || is_complex b then
        x ← to_complex a; y ← to_complex b;
        z ← lift (complex_binop rt o x y); Ok (VComplex z)
      else
        x ← to_float a; y ← to_float b; on_float x y
  end.

Definition pow_float (x y : float) : result value :=
  r ← lift (float_pow rt x y);
  Ok (match r with inl z => VFloat z | inr c => VComplex c end).

Definition op_add : value -> value -> result value :=
  arith Add (fun m n => Ok (VInt (m + n))) (fun x y => Ok (VFloat (x + y)%float)).
Definition op_sub : value -> value -> result value :=
  arith Sub (fun m n => Ok (VInt (m - n))) (fun x y => Ok (VFloat (x - y)%float)).
Definition op_mul : value -> value -> result value :=
  arith Mult (fun m n => Ok (VInt (m * n))) (fun x y => Ok (VFloat (x * y)%float)).
Definition op_truediv : value -> value -> result value :=
  arith Div (fun m n => z ← int_truediv m n; Ok (VFloat z))
            (fun x y => z ← float_truediv x y; Ok (VFloat z)).
Definition op_pow : value -> value -> result value :=
  arith Pow (fun m n =>
               if 0 <=? n then Ok (VInt (m ^ n))
               else x ← float_of_int m; y ← float_of_int n; pow_float x y)
            pow_float.
Definition op_neg (a : value) : result value :=
  match a with
  | VInt n => Ok (VInt (- n))
  | VFloat x => Ok (VFloat (- x)%float)
  | VComplex c => Ok (VComplex (complex_neg rt c))
  end.

(** A Python callable of one or of two arguments. *)
Inductive callable : Type :=
| Fn1 (f : value -> result value)
| Fn2 (f : value -> value -> result value).

Definition call1 (c : callable) (a : value) : result value :=
  match c with
  | Fn1 f => f a
  | Fn2 _ => Raise TypeError
  end.

Definition call2 (c : callable) (a b : value) : result value :=
  match c with
  | Fn2 f => f a b
  | Fn1 _ => Raise TypeError
  end.

Definition _ALLOWED : list (opclass * callable) :=
  [ (BinCls Add, Fn2 op_add);
    (BinCls Sub, Fn2 op_sub);
    (BinCls Mult, Fn2 op_mul);
    (BinCls Div, Fn2 op_truediv);
    (BinCls Pow, Fn2 op_pow);
    (UnCls USub, Fn1 op_neg) ].

(** [d[k]] on a dict literal: [KeyError] when the key is absent.  The key
    of the error is the operator class, given here by its name. *)
Fixpoint getitem (d : list (opclass * callable)) (k : opclass) : result callable :=
  match d with
  | [] => Raise (KeyError (opclass_name k))
  | (k', f) :: d' => if decide (k' = k) then Ok f else getitem d' k
  end.

(** [isinstance(node, ast.Num)] and [node.n]: a constant that is an [int],
    a [float] or a [complex], and not a [bool]. *)
Definition as_Num (c : constant) : option value :=
  match c with
  | CInt n => Some (VInt n)
  | CFloat x => Some (VFloat x)
  | CImag y => Some (VComplex (complex_imag rt y))
  | _ => None
  end.

Definition unsupported : exn := ValueError "unsupported expression".

(** [_eval]: the table lookup comes first, then the operands from left to
    right, then the call. *)
Fixpoint _eval (node : expr) : result value :=
  match node with
  | Constant c =>
      match as_Num c with
      | Some v => Ok v
      | None => Raise unsupported
      end
  | UnaryOp o operand =>
      f ← getitem _ALLOWED (UnCls o);
      a ← _eval operand;
      call1 f a
  | BinOp l o r =>
      f ← getitem _ALLOWED (BinCls o);
      a ← _eval l;
      b ← _eval r;
      call2 f a b
  | _ => Raise unsupported
  end.

(** [calc], from the parsed expression [tree.body] on: a string that
    [ast.parse] refuses has no parsed form. *)
Definition calc (body : expr) : result float :=
  v ← _eval body; to_float v.

End Evaluator.

Arguments VInt {rt} n.
Arguments VFloat {rt} x.
Arguments VComplex {rt} c.

End Calc.


(** ** The process runner *)

Module Runner.

(** What [subprocess.run(..., text=True, capture_output=True)] hands back.
    [None] in [stdout] or [stderr] is Python's [None]. *)
Record CompletedProcess : Type := {
  proc_returncode : Z;
  proc_stdout : option string;
  proc_stderr : option string;
}.

(** The state of a file that is expected to hold an XML document. *)
Inductive file_state (doc : Type) : Type :=
| Missing
| Unparsable
| Parsed (root : doc).
Arguments Missing {doc}.
Arguments Unparsable {doc}.
Arguments Parsed {doc} root.

(** The surroundings of the program: path handling, the executable search
    path, process spawning ([OSError] when the program cannot be started)
    and the file system as the program finds it. *)
Record World (doc : Type) : Type := {
  PROJECT_ROOT : string;
  joinpath : string -> string -> string;
  abspath : string -> string;
  which : string -> option string;
  subprocess_run : list string -> string -> result CompletedProcess;
  fs : string -> file_state doc;
}.
Arguments PROJECT_ROOT {doc} w.
Arguments joinpath {doc} w.
Arguments abspath {doc} w.
Arguments which {doc} w.
Arguments subprocess_run {doc} w.
Arguments fs {doc} w.

(** The dict [_run] returns. *)
Record RunResult : Type := {
  command : string;
  cwd : string;
  returncode : Z;
  stdout_tail : string;
  stderr_tail : string;
}.

Fixpoint drop_chars (n : nat) (s : string) : string :=
  match n, s with
  | S n', String _ s' => drop_chars n' s'
  | _, _ => s
  end.

(** [s[-n:]] for [0 < n]. *)
Definition last_chars (n : nat) (s : string) : string :=
  drop_chars (String.length s - n) s.

(** [" ".join(l)] *)
Fixpoint join_spaces (l : list string) : string :=
  match l with
  | [] => ""
  | [x] => x
  | x :: l' => x ++ " " ++ join_spaces l'
  end.

(** [x or d] on an optional [str]: [None] and the empty string are falsy. *)
Definition str_or (x : option string) (d : string) : string :=
  match x with
  | Some (String c r) => String c r
  | _ => d
  end.

Definition truthy (x : option string) : option string :=
  match x with
  | Some (String c r) => Some (String c r)
  | _ => None
  end.

Section Run.
Context {doc : Type} (w : World doc).

Definition POM_PATH : string :=
  joinpath w (joinpath w (PROJECT_ROOT w) "codebase") "pom.xml".

Definition _run (cmd : list string) (cwd : option string) : result RunResult :=
  proc ← subprocess_run w cmd (str_or cwd (PROJECT_ROOT w));
  let out := str_or (proc_stdout proc) "" in
  let err := str_or (proc_stderr proc) "" in
  Ok {| command := join_spaces cmd;
        cwd := abspath w (str_or cwd (PROJECT_ROOT w));
        returncode := proc_returncode proc;
        stdout_tail := last_chars 2000 out;
        stderr_tail := last_chars 2000 err |}.

Definition run_maven (test_filter : option string) (goals : string) : result RunResult :=
  let mvn_path := str_or (which w "mvn") "mvn" in
  let cmd := ["cmd"; "/c"; mvn_path; "-f"; POM_PATH] in
  let cmd :=
    match truthy test_filter with
    | Some f => (cmd ++ [("-Dtest=" ++ f)%string])%list
    | None => cmd
    end in
  let cmd := (cmd ++ [goals])%list in
  _run cmd (Some (PROJECT_ROOT w)).

Definition maven_test (test_filter : option string) : result RunResult :=
  run_maven test_filter "test".

Definition maven_test_tool (test_filter : string) : result RunResult :=
  maven_test (truthy (Some test_filter)).

End Run.

End Runner.

(** ** The coverage report *)

Module Xml.

(** An element of a parsed document: tag, attribute dict and child
    elements in document order. *)
Inductive Element : Type :=
  mkElement { tag : string; attrib : gmap string string; children : list Element }.

(** [elem.iter()]: the element and all elements below it, in document
    order. *)
Fixpoint iter (e : Element) : list Element :=
  e :: flat_map iter (children e).

(** [elem.iterfind(".//name")]: the elements below [elem], at any depth,
    whose tag is [name], in document order; [elem] itself is not among
    them. *)
Definition iterfind_desc (name : string) (e : Element) : list Element :=
  List.filter (fun d => bool_decide (tag d = name)) (flat_map iter (children e)).

(** [d[k]] on a dict with [str] keys. *)
Definition getitem {V : Type} (d : gmap string V) (k : string) : result V :=
  match d !! k with
  | Some v => Ok v
  | None => Raise (KeyError k)
  end.

End Xml.

Module Coverage.
Import PyNum Runner Xml.

(** A [for] loop whose body updates the state [S] and may raise. *)
Fixpoint for_each {A S : Type} (body : S -> A -> result S) (l : list A) (s : S)
    : result S :=
  match l with
  | [] => Ok s
  | a :: l' => s' ← body s a; for_each body l' s'
  end.

(** [round(100.0 * cov / (cov + miss), 2) if cov + miss else 0.0], the
    expression of [pct] and of [uncovered_classes]. *)
Definition percentage (cov miss : Z) : result float :=
  if cov + miss =? 0 then Ok 0%float
  else
    c ← float_of_int cov;
    d ← float_of_int (cov + miss);
    q ← float_truediv (100 * c)%float d;
    Ok (round2 q).

(** [s.replace("/", ".")] *)
Fixpoint dotted (s : string) : string :=
  match s with
  | EmptyString => EmptyString
  | String c r => String (if Ascii.eqb c "/" then "."%char else c) (dotted r)
  end.

(** The dict [maven_test_and_report] returns. *)
Record Report : Type := {
  returncode : Z;
  summary : gmap string float;
}.

(** An entry of the list [uncovered_classes] returns. *)
Record ClassCoverage : Type := {
  class : string;
  line_coverage_pct : float;
}.

(** [{"covered": c, "missed": m}] *)
Definition tally (c m : Z) : gmap string Z :=
  <["missed" := m]> (<["covered" := c]> ∅).

(** The initial value of [counters]. *)
Definition counters0 : gmap string (gmap string Z) :=
  <["BRANCH" := tally 0 0]> (<["LINE" := tally 0 0]> ∅).

(** [counters[t][field] += int(c.attrib[field])] *)
Definition add_to (counters : gmap string (gmap string Z)) (t field : string)
    (c : Element) : result (gmap string (gmap string Z)) :=
  inner ← getitem counters t;
  old ← getitem inner field;
  text ← getitem (attrib c) field;
  n ← int_of_str text;
  Ok (<[t := <[field := old + n]> inner]> counters).

(** The body of the loop over the counters of the document. *)
Definition count_step (counters : gmap string (gmap string Z)) (c : Element)
    : result (gmap string (gmap string Z)) :=
  t ← getitem (attrib c) "type";
  if bool_decide (is_Some (counters !! t)) then
    counters ← add_to counters t "covered" c;
    add_to counters t "missed" c
  else Ok counters.

(** The closure [pct] over [counters]. *)
Definition pct (counters : gmap string (gmap string Z)) (kind : string) : result float :=
  inner ← getitem counters kind;
  cov ← getitem inner "covered";
  inner' ← getitem counters kind;
  miss ← getitem inner' "missed";
  percentage cov miss.

(** The loop over [tree.iterfind(".//counter")]. *)
Definition aggregate (tree : Element) : result (gmap string (gmap string Z)) :=
  for_each count_step (iterfind_desc "counter" tree) counters0.

(** The body of [if report.exists():]. *)
Definition summarize (tree : Element) : result (gmap string float) :=
  counters ← aggregate tree;
  l ← pct counters "LINE";
  b ← pct counters "BRANCH";
  Ok (<["branch_coverage_pct" := b]> (<["line_coverage_pct" := l]> ∅)).

(** The inner loop of [uncovered_classes]: [line_cov] starts at [0.0] and
    the loop breaks at the first counter whose type is [LINE]. *)
Fixpoint first_line_cov (cs : list Element) : result float :=
  match cs with
  | [] => Ok 0%float
  | c :: cs' =>
      t ← getitem (attrib c) "type";
      if bool_decide (t = "LINE") then
        covered_text ← getitem (attrib c) "covered";
        covered ← int_of_str covered_text;
        missed_text ← getitem (attrib c) "missed";
        missed ← int_of_str missed_text;
        percentage covered missed
      else first_line_cov cs'
  end.

(** The body of the loop over the classes, up to the threshold test. *)
Definition class_entry (cls : Element) : result ClassCoverage :=
  raw ← getitem (attrib cls) "name";
  let name := dotted raw in
  line_cov ← first_line_cov (iterfind_desc "counter" cls);
  Ok {| class := name; line_coverage_pct := line_cov |}.

Definition class_step (threshold : float) (low : list ClassCoverage) (cls : Element)
    : result (list ClassCoverage) :=
  entry ← class_entry cls;
  if (line_coverage_pct entry <? threshold)%float
  then Ok (low ++ [entry])%list
  else Ok low.

Section Tools.
Context (w : World Element).

Definition codebase : string := joinpath w (PROJECT_ROOT w) "codebase".

(** [codebase / "target" / "site" / "jacoco" / "jacoco.xml"] *)
Definition report_path : string :=
  joinpath w (joinpath w (joinpath w (joinpath w codebase "target") "site") "jacoco")
    "jacoco.xml".

(** The command line of [maven_test_and_report]. *)
Definition report_cmd : list string :=
  ["mvn"; "-f"; joinpath w codebase "pom.xml"; "clean"; "test"; "jacoco:report"].

Definition maven_test_and_report : result Report :=
  let repo := PROJECT_ROOT w in
  let cmd := report_cmd in
  out ← subprocess_run w cmd repo;
  summary ←
    match fs w report_path with
    | Missing => Ok ∅
    | Unparsable => Raise ParseError
    | Parsed tree => summarize tree
    end;
  Ok {| returncode := proc_returncode out; summary := summary |}.

Definition run_report_first : exn := RuntimeError "Run maven_test_and_report first.".

Definition uncovered_classes (threshold : float) : result (list ClassCoverage) :=
  match fs w report_path with
  | Missing => Raise run_report_first
  | Unparsable => Raise ParseError
  | Parsed tree => for_each (class_step threshold) (iterfind_desc "class" tree) []
  end.

End Tools.

End Coverage.

(** ** What the specification speaks about *)

Module Grammar.
Import Calc.

(** A [Number] node: [isinstance(node, ast.Num)]. *)
Definition is_number (c : constant) : bool :=
  match c with
  | CInt _ | CFloat _ | CImag _ => true
  | _ => false
  end.

(** The allow-list {add, subtract, multiply, divide, power, negate}. *)
Definition allowed_binop (o : operator) : bool :=
  match o with
  | Add | Sub | Mult | Div | Pow => true
  | _ => false
  end.

Definition allowed_unop (o : unaryop) : bool :=
  match o with
  | USub => true
  | _ => false
  end.

(** The node kinds {Number, UnaryOp, BinaryOp}. *)
Definition node_kind_ok (e : expr) : bool :=
  match e with
  | Constant c => is_number c
  | UnaryOp _ _ | BinOp _ _ _ => true
  | _ => false
  end.

(** The parsed form contains a node of another kind, or an operator that
    is not on the allow-list. *)
Fixpoint contains_unsupported (e : expr) : bool :=
  match e with
  | Constant c => negb (is_number c)
  | UnaryOp o a => negb (allowed_unop o) || contains_unsupported a
  | BinOp l o r =>
      negb (allowed_binop o) || contains_unsupported l || contains_unsupported r
  | _ => true
  end.

(** Every operator of the arithmetic skeleton is on the allow-list. *)
Fixpoint operators_allowed (e : expr) : bool :=
  match e with
  | UnaryOp o a => allowed_unop o && operators_allowed a
  | BinOp l o r => allowed_binop o && operators_allowed l && operators_allowed r
  | _ => true
  end.


(** The exact value of an expression over integer literals with [+ - *],
    unary minus and [**] with a non-negative exponent. *)
Fixpoint int_value (e : expr) : option Z :=
  match e with
  | Constant (CInt n) => Some n
  | UnaryOp USub a => Z.opp <$> int_value a
  | BinOp l Add r => a ← int_value l; b ← int_value r; Some (a + b)
  | BinOp l Sub r => a ← int_value l; b ← int_value r; Some (a - b)
  | BinOp l Mult r => a ← int_value l; b ← int_value r; Some (a * b)
  | BinOp l Pow r =>
      a ← int_value l; b ← int_value r;
      if 0 <=? b then Some (a ^ b) else None
  | _ => None
  end.

End Grammar.

Module Spec.
Import PyNum Calc Xml Coverage.

(** The rational number a finite [float] stands for. *)
Definition exact_of_float (x : float) : option Q :=
  match Prim2SF x with
  | S754_zero _ => Some 0%Q
  | S754_finite s m e => Some (inject_Z (cond_Zopp s (Z.pos m)) * 2 ^ e)%Q
  | _ => None
  end.




(** The value of [field] on a [counter] element of type [kind], zero on
    any other element. *)
Definition count_of (kind field : string) (c : Element) : Z :=
  if bool_decide (tag c = "counter") && bool_decide (attrib c !! "type" = Some kind) then
    match attrib c !! field with
    | Some text => match int_of_str text with Ok n => n | Raise _ => 0 end
    | None => 0
    end
  else 0.

(** The sum of [f] over every element below [e], whatever its depth. *)
Fixpoint sum_below (f : Element -> Z) (e : Element) : Z :=
  (fix over (cs : list Element) : Z :=
     match cs with
     | [] => 0
     | c :: cs' => f c + sum_below f c + over cs'
     end) (children e).

(** The sum of [f] over a list of elements. *)
Fixpoint sum_of (f : Element -> Z) (l : list Element) : Z :=
  match l with
  | [] => 0
  | c :: l' => f c + sum_of f l'
  end.

Definition total (kind field : string) (root : Element) : Z :=
  sum_below (count_of kind field) root.

(** A counter the aggregation can read: it has a [type], and when that is
    [LINE] or [BRANCH] its [covered] and [missed] are integers. *)
Definition is_int (text : option string) : bool :=
  match text with
  | Some t => match int_of_str t with Ok _ => true | Raise _ => false end
  | None => false
  end.

Definition readable_counter (c : Element) : bool :=
  match attrib c !! "type" with
  | Some t =>
      if bool_decide (t = "LINE") || bool_decide (t = "BRANCH")
      then is_int (attrib c !! "covered") && is_int (attrib c !! "missed")
      else true
  | None => false
  end.

(** [{"LINE": {"covered": lc, "missed": lm}, "BRANCH": {"covered": bc, "missed": bm}}] *)
Definition counters_of (lc lm bc bm : Z) : gmap string (gmap string Z) :=
  <["BRANCH" := tally bc bm]> (<["LINE" := tally lc lm]> ∅).

(** A class none of whose counters, at any depth, has type [LINE]. *)
Definition no_line_counter (cls : Element) : bool :=
  forallb (fun c => match attrib c !! "type" with
                    | Some t => negb (bool_decide (t = "LINE"))
                    | None => false
                    end)
          (iterfind_desc "counter" cls).

(** [t] is what is left of [s] when only its last [n] characters are
    kept. *)
Definition keeps_last (n : nat) (s t : string) : Prop :=
  exists older, s = older ++ t /\ String.length t = Nat.min n (String.length s).

(** [entry] is strictly below the threshold. *)
Definition is_low (threshold : float) (entry : ClassCoverage) : bool :=
  (line_coverage_pct entry <? threshold)%float.

(** [d] lies below [e] in the document. *)
Inductive below : Element -> Element -> Prop :=
| below_child (c e : Element) : In c (children e) -> below c e
| below_deeper (d c e : Element) : In c (children e) -> below d c -> below d e.

(** Line coverage from the first [LINE] counter that is a child of the
    class element. *)
Definition direct_line_cov (cls : Element) : result float :=
  first_line_cov (List.filter (fun d => bool_decide (tag d = "counter")) (children cls)).

(** A summary with both percentages at zero. *)
Definition zero_summary : gmap string float :=
  <["branch_coverage_pct" := 0%float]> (<["line_coverage_pct" := 0%float]> ∅).

(** [[f(x) for x in l]] where [f] may raise. *)
Fixpoint collect {A B : Type} (f : A -> result B) (l : list A) : result (list B) :=
  match l with
  | [] => Ok []
  | a :: l' => b ← f a; bs ← collect f l'; Ok (b :: bs)
  end.

End Spec.

(** ** Sample inputs *)

Module Samples.
Import Calc Runner Xml Coverage.

Definition num (n : Z) : expr := Constant (CInt n).

(** ["1/0 + x"], ["1 % 2"], ["1/0"], ["1/49*49"], ["10**400"] *)
Definition e_div0_plus_x : expr := BinOp (BinOp (num 1) Div (num 0)) Add (Name "x").
Definition e_1_mod_2 : expr := BinOp (num 1) Mod (num 2).
Definition e_10_pow_400 : expr := BinOp (num 10) Pow (num 400).
(** ["__import__('os')"], ["1 and 2"] *)
Definition e_import_os : expr := Call (Name "__import__") [Constant (CStr "os")].
Definition e_1_and_2 : expr := BoolOp And [num 1; num 2].


Definition el (t : string) (a : list (string * string)) (cs : list Element) : Element :=
  mkElement t (list_to_map a) cs.

Definition counter (t c m : string) : Element :=
  el "counter" [("type", t); ("covered", c); ("missed", m)] [].

(** A world where the build ended as [p] and the report file is [f]. *)
Definition world (p : CompletedProcess) (f : file_state Element) : World Element :=
  {| PROJECT_ROOT := "/repo";
     joinpath := fun a b => a ++ "/" ++ b;
     abspath := fun a => a;
     which := fun _ => None;
     subprocess_run := fun _ _ => Ok p;
     fs := fun _ => f |}.

Definition build_failed : CompletedProcess :=
  {| proc_returncode := 1; proc_stdout := Some "BUILD FAILURE"; proc_stderr := Some "" |}.

Definition build_ok : CompletedProcess :=
  {| proc_returncode := 0; proc_stdout := Some "BUILD SUCCESS"; proc_stderr := None |}.

(** A report whose only counter is [LINE] with 8 covered and 2 missed. *)
Definition report_8_2 : Element :=
  el "report" [("name", "demo")] [counter "LINE" "8" "2"].

(** The same counts at package and at class level. *)
Definition report_two_levels : Element :=
  el "report" []
    [el "package" [("name", "p")]
       [el "class" [("name", "p/A")] [counter "LINE" "8" "2"];
        counter "LINE" "8" "2"]].

(** Classes at 95.0, 60.0 and 80.0 percent. *)
Definition report_three_classes : Element :=
  el "report" []
    [el "package" [("name", "p")]
       [el "class" [("name", "p/High")] [counter "LINE" "95" "5"];
        el "class" [("name", "p/Low")] [counter "LINE" "60" "40"];
        el "class" [("name", "p/Edge")] [counter "LINE" "80" "20"]]].

(** A class as JaCoCo writes it: the counters of each method come before
    the counters of the class. *)
Definition class_with_method : Element :=
  el "class" [("name", "p/A")]
    [el "method" [("name", "run")]
       [counter "INSTRUCTION" "4" "4"; counter "LINE" "1" "1"];
     counter "INSTRUCTION" "40" "4";
     counter "LINE" "9" "1"].

(** A class without any [LINE] counter. *)
Definition class_without_line : Element :=
  el "class" [("name", "p/Empty")] [counter "INSTRUCTION" "0" "3"].

Definition report_without_line : Element :=
  el "report" [] [el "package" [] [class_without_line]].

End Samples.

(** ** The HTTP surface *)

Module Http.
Import Runner.

Section Routes.
Context {doc : Type} (w : World doc).

(** [POST /maven/test].  The body is optional; its [test_filter], which
    [maven_test] takes as an optional [str], is read with [dict.get]. *)
Definition api_maven_test (payload : option (gmap string string)) : result RunResult :=
  let body : gmap string string :=
    match payload with
    | Some d => if bool_decide (d = ∅) then ∅ else d
    | None => ∅
    end in
  let test_filter := body !! "test_filter" in
  maven_test w test_filter.

End Routes.

End Http.

(** ** Further notions *)

Module Notions.
Import Calc Runner Xml Coverage.

(** An imaginary literal occurs among the operands of the expression. *)
Fixpoint contains_imag (e : expr) : bool :=
  match e with
  | Constant (CImag _) => true
  | UnaryOp _ a => contains_imag a
  | BinOp l _ r => contains_imag l || contains_imag r
  | _ => false
  end.

(** The program [run_maven] starts: what [shutil.which] found, or [mvn]. *)
Definition mvn_path {doc : Type} (w : World doc) : string :=
  match which w "mvn" with
  | Some (String c r) => String c r
  | _ => "mvn"
  end.

(** The Maven command line for a test filter: the filter argument is
    present exactly when the filter is not empty. *)
Definition maven_cmd {doc : Type} (w : World doc) (test_filter : string) : list string :=
  (["cmd"; "/c"; mvn_path w; "-f"; POM_PATH w]
     ++ match test_filter with
        | EmptyString => []
        | String _ _ => [("-Dtest=" ++ test_filter)%string]
        end
     ++ ["test"])%list.

(** The character [c] occurs in [s]. *)
Fixpoint contains_char (c : ascii) (s : string) : bool :=
  match s with
  | EmptyString => false
  | String c' r => Ascii.eqb c' c || contains_char c r
  end.

(** Counters that the search for the first [LINE] counter passes over:
    each has a [type], and it is not [LINE]. *)
Definition passed_over (cs : list Element) : bool :=
  forallb (fun c => match attrib c !! "type" with
                    | Some t => negb (bool_decide (t = "LINE"))
                    | None => false
                    end) cs.

(** A counter of type [LINE] with integer counts. *)
Definition line_counter (c : Element) (covered missed : Z) : Prop :=
  attrib c !! "type" = Some "LINE" /\
  (exists text, attrib c !! "covered" = Some text /\ PyNum.int_of_str text = Ok covered) /\
  (exists text, attrib c !! "missed" = Some text /\ PyNum.int_of_str text = Ok missed).

End Notions.

Module MoreSamples.
Import Calc Runner Xml Coverage Samples.

(** ["(1/0) % x"], ["1/(2-2)"], ["-(2j)"] *)
Definition e_div0_mod_x : expr := BinOp (BinOp (num 1) Div (num 0)) Mod (Name "x").
Definition e_1_over_2_minus_2 : expr := BinOp (num 1) Div (BinOp (num 2) Sub (num 2)).
Definition e_neg_2j : expr := UnaryOp USub (Constant (CImag 2%float)).

(** A package with one class at 50 percent and one at 90 percent. *)
Definition package_a : list Element :=
  [el "package" [("name", "a")]
     [el "class" [("name", "a/Half")] [counter "LINE" "5" "5"; counter "BRANCH" "1" "3"];
      el "class" [("name", "a/Most")] [counter "LINE" "9" "1"]]].

(** A package with one class at 70 percent. *)
Definition package_b : list Element :=
  [el "package" [("name", "b")]
     [el "class" [("name", "b/Some")] [counter "LINE" "7" "3"]]].

(** A counter that cannot be read: its [covered] is not an integer. *)
Definition counter_not_a_number : Element := counter "LINE" "many" "0".

(** A counter of another type with counts that are not integers. *)
Definition counter_other_type : Element := counter "COMPLEXITY" "n/a" "n/a".

End MoreSamples.

(** ** Reference arithmetic *)

Module Reference.
Import PyNum Calc Coverage.

(** The operations of IEEE 754 on binary64 numbers, as the specification
    of floating-point numbers defines them: the exact result, rounded to
    the nearest representable number, ties to even. *)
Definition ieee_add (x y : float) : float :=
  SF2Prim (SFadd prec emax (Prim2SF x) (Prim2SF y)).
Definition ieee_sub (x y : float) : float :=
  SF2Prim (SFsub prec emax (Prim2SF x) (Prim2SF y)).
Definition ieee_mul (x y : float) : float :=
  SF2Prim (SFmul prec emax (Prim2SF x) (Prim2SF y)).
Definition ieee_div (x y : float) : float :=
  SF2Prim (SFdiv prec emax (Prim2SF x) (Prim2SF y)).

Definition is_zero (x : float) : bool :=
  match Prim2SF x with
  | S754_zero _ => true
  | _ => false
  end.

(** A real number of Python: an [int] or a [float]. *)
Inductive real : Type :=
| RInt (n : Z)
| RFloat (x : float).

(** What an arithmetic expression stands for: a real number, an exception,
    or a power that is complex. *)
Inductive outcome : Type :=
| Value (v : real)
| Fails (e : exn)
| ComplexPower.

Definition as_float (v : real) : result float :=
  match v with
  | RInt n => float_of_int n
  | RFloat x => Ok x
  end.

Definition of_result (r : result float) : outcome :=
  match r with
  | Ok x => Value (RFloat x)
  | Raise e => Fails e
  end.

(** An operation on floats, each [int] operand converted first, the left
    one before the right one. *)
Definition on_floats (f : float -> float -> outcome) (a b : real) : outcome :=
  match as_float a with
  | Raise e => Fails e
  | Ok x =>
      match as_float b with
      | Raise e => Fails e
      | Ok y => f x y
      end
  end.

Section Platform.
Context (rt : NumLib).

(** The power of two floats is the platform's. *)
Definition power (x y : float) : outcome :=
  match float_pow rt x y with
  | inl e => Fails (exn_of_arith e)
  | inr (inl z) => Value (RFloat z)
  | inr (inr _) => ComplexPower
  end.

(** Python's arithmetic on real numbers: exact on two [int]s (the
    quotient of two [int]s is the correctly rounded float, a negative
    [int] power is a float power), IEEE 754 as soon as one operand is a
    [float]. *)
Definition apply (o : operator) (a b : real) : outcome :=
  match o, a, b with
  | Add, RInt m, RInt n => Value (RInt (m + n))
  | Add, _, _ => on_floats (fun x y => Value (RFloat (ieee_add x y))) a b
  | Sub, RInt m, RInt n => Value (RInt (m - n))
  | Sub, _, _ => on_floats (fun x y => Value (RFloat (ieee_sub x y))) a b
  | Mult, RInt m, RInt n => Value (RInt (m * n))
  | Mult, _, _ => on_floats (fun x y => Value (RFloat (ieee_mul x y))) a b
  | Div, RInt m, RInt n => of_result (int_truediv m n)
  | Div, _, _ =>
      on_floats (fun x y => if is_zero y then Fails ZeroDivisionError
                            else Value (RFloat (ieee_div x y))) a b
  | Pow, RInt m, RInt n =>
      if 0 <=? n then Value (RInt (m ^ n)) else on_floats power a b
  | Pow, _, _ => on_floats power a b
  | _, _, _ => Fails (KeyError (opclass_name (BinCls o)))
  end.





End Platform.

(** *** Percentages in exact arithmetic *)

(** A small natural number as a float: exact below 2^53. *)
Definition float_of_small (n : Z) : float := PrimFloat.of_uint63 (Uint63.of_Z n).

(** The integer nearest to a rational, ties to the even one. *)
Definition nearest_even (q : Q) : Z :=
  let f := Qfloor q in
  match Qcompare (q - inject_Z f) (1 # 2) with
  | Lt => f
  | Gt => f + 1
  | Eq => if Z.even f then f else f + 1
  end.

(** [round(x, 2)] for a small [x >= 0]: the number of hundredths nearest
    to the exact value of [x], as a float. *)
Definition round_2dp (x : float) : float :=
  match Spec.exact_of_float x with
  | Some q => (float_of_small (nearest_even (q * 100)) / 100)%float
  | None => x
  end.

(** [round(100 * covered / (covered + missed), 2)], or 0.0 when
    [covered + missed] is zero, for small counts. *)
Definition percent (covered missed : Z) : float :=
  if covered + missed =? 0 then 0%float
  else round_2dp ((100 * float_of_small covered) / float_of_small (covered + missed))%float.

Definition agrees (c m : Z) : bool :=
  match percentage c m with
  | Ok x => PrimFloat.Leibniz.eqb x (percent c m)
  | Raise _ => false
  end.

(** The integers from 0 to [n]. *)
Definition upto (n : nat) : list Z := List.map Z.of_nat (List.seq 0 (S n)).

Definition all_agree (n : nat) : bool :=
  forallb (fun c => forallb (agrees c) (upto n)) (upto n).

(** The bound of the counts for which the percentages are checked one by
    one. *)
Definition small_count : nat := 100.

End Reference.

(** ** The runner, in the words of its description *)

Module RunnerSpec.
Import Runner.

(** The directory a command is started in: the given one, or the project
    root when none or an empty one is given. *)
Definition working_dir {doc : Type} (w : World doc) (cwd : option string) : string :=
  match cwd with
  | None => PROJECT_ROOT w
  | Some d => if decide (d = "") then PROJECT_ROOT w else d
  end.

(** What was captured of a stream: its text, nothing for [None]. *)
Definition captured (stream : option string) : string := default "" stream.

(** A build that printed more than 2000 characters and failed. *)
Definition long_output : string :=
  "older output" ++ String.concat "" (List.repeat "0123456789" 200).

Definition build_long : CompletedProcess :=
  {| proc_returncode := 3; proc_stdout := Some long_output; proc_stderr := Some "BUILD FAILURE" |}.

End RunnerSpec.

Module ReferenceSamples.
Import Calc Samples.





End ReferenceSamples.

(** * Properties *)

(** ** Results *)

Lemma bind_ok {A B} (m : result A) (f : A -> result B) (a : A) :
  m = Ok a -> m ≫= f = f a.
Proof. intros ->. reflexivity. Qed.

Lemma bind_raise {A B} (m : result A) (f : A -> result B) (e : exn) :
  m = Raise e -> m ≫= f = Raise e.
Proof. intros ->. reflexivity. Qed.

Lemma raises_bind {A B} (m : result A) (f : A -> result B) :
  raises m -> raises (m ≫= f).
Proof. intros [e ->]. exists e. reflexivity. Qed.

Lemma raises_not_ok {A} (m : result A) (a : A) : raises m -> m <> Ok a.
Proof. intros [e ->]. discriminate. Qed.

(** ** The evaluator *)

Module CalcFacts.
Import PyNum Calc Grammar Spec Samples.

Lemma benign_ok {A} (a : A) : benign (Ok a).
Proof. left. exists a. reflexivity. Qed.

Lemma benign_bind {A B} (m : result A) (f : A -> result B) :
  benign m -> (forall a, benign (f a)) -> benign (m ≫= f).
Proof.
  intros [[a ->] | [-> | ->]] Hf.
  - apply Hf.
  - right. left. reflexivity.
  - right. right. reflexivity.
Qed.

Lemma float_of_int_benign n : benign (float_of_int n).
Proof.
  unfold float_of_int.
  destruct (binary_normalize prec emax n 0 false);
    first [apply benign_ok | right; right; reflexivity].
Qed.

Lemma int_truediv_benign a b : benign (int_truediv a b).
Proof.
  unfold int_truediv.
  destruct (b =? 0); [right; left; reflexivity |].
  destruct (a =? 0); [apply benign_ok |].
  destruct (SFdiv_core_binary prec emax (Z.abs a) 0 (Z.abs b) 0) as [[q e] l].
  destruct (binary_round_aux prec emax _ q e l);
    first [apply benign_ok | right; right; reflexivity].
Qed.

Lemma float_truediv_benign x y : benign (float_truediv x y).
Proof.
  unfold float_truediv.
  destruct (PrimFloat.eqb y 0); [right; left; reflexivity | apply benign_ok].
Qed.

Lemma lift_benign {A} (r : arith_exn + A) : benign (lift r).
Proof.
  destruct r as [[|] | a]; simpl.
  - right. left. reflexivity.
  - right. right. reflexivity.
  - apply benign_ok.
Qed.

#[local] Arguments Calc.getitem : simpl never.

Section WithRuntime.
Context (rt : NumLib).

Lemma to_float_not_complex (v : value rt) : is_complex rt v = false -> benign (to_float rt v).
Proof.
  destruct v; simpl; intros H.
  - apply float_of_int_benign.
  - apply benign_ok.
  - discriminate.
Qed.

Lemma to_complex_benign (v : value rt) : benign (to_complex rt v).
Proof.
  destruct v; simpl.
  - apply benign_bind; [apply float_of_int_benign | intros; apply benign_ok].
  - apply benign_ok.
  - apply benign_ok.
Qed.

Lemma pow_float_benign x y : benign (pow_float rt x y).
Proof.
  unfold pow_float. apply benign_bind; [apply lift_benign | intros; apply benign_ok].
Qed.

Lemma arith_benign o fi ff a b :
  (forall m n, benign (fi m n)) -> (forall x y, benign (ff x y)) ->
  benign (arith rt o fi ff a b).
Proof.
  intros Hi Hf.
  assert (Hmixed : is_complex rt a || is_complex rt b = false ->
            benign (x ← to_float rt a; y ← to_float rt b; ff x y)).
  { intros H. apply orb_false_iff in H as [Ha Hb].
    apply benign_bind; [now apply to_float_not_complex |].
    intros x. apply benign_bind; [now apply to_float_not_complex | auto]. }
  assert (Hcomplex :
            benign (x ← to_complex rt a; y ← to_complex rt b;
                    z ← lift (complex_binop rt o x y); Ok (VComplex z))).
  { apply benign_bind; [apply to_complex_benign |]. intros x.
    apply benign_bind; [apply to_complex_benign |]. intros y.
    apply benign_bind; [apply lift_benign | intros; apply benign_ok]. }
  unfold arith.
  destruct a, b; try apply Hi;
    (destruct (is_complex rt _ || is_complex rt _) eqn:E;
     [apply Hcomplex | apply Hmixed; reflexivity]).
Qed.

Lemma op_add_benign a b : benign (op_add rt a b).
Proof. apply arith_benign; intros; apply benign_ok. Qed.

Lemma op_sub_benign a b : benign (op_sub rt a b).
Proof. apply arith_benign; intros; apply benign_ok. Qed.

Lemma op_mul_benign a b : benign (op_mul rt a b).
Proof. apply arith_benign; intros; apply benign_ok. Qed.

Lemma op_truediv_benign a b : benign (op_truediv rt a b).
Proof.
  apply arith_benign; intros.
  - apply benign_bind; [apply int_truediv_benign | intros; apply benign_ok].
  - apply benign_bind; [apply float_truediv_benign | intros; apply benign_ok].
Qed.

Lemma op_pow_benign a b : benign (op_pow rt a b).
Proof.
  apply arith_benign; intros.
  - destruct (0 <=? n); [apply benign_ok |].
    apply benign_bind; [apply float_of_int_benign |]. intros x.
    apply benign_bind; [apply float_of_int_benign |]. intros y.
    apply pow_float_benign.
  - apply pow_float_benign.
Qed.

Lemma op_neg_benign a : benign (op_neg rt a).
Proof. destruct a; apply benign_ok. Qed.

(** The table has an entry exactly for the operators of the allow-list. *)
Lemma allowed_binop_entry o :
  allowed_binop o = true ->
  exists f, getitem rt (_ALLOWED rt) (BinCls o) = Ok (Fn2 rt f) /\ forall a b, benign (f a b).
Proof.
  destruct o; try discriminate; intros _; eexists; (split; [reflexivity |]).
  - apply op_add_benign.
  - apply op_sub_benign.
  - apply op_mul_benign.
  - apply op_truediv_benign.
  - apply op_pow_benign.
Qed.

Lemma allowed_unop_entry o :
  allowed_unop o = true ->
  exists f, getitem rt (_ALLOWED rt) (UnCls o) = Ok (Fn1 rt f) /\ forall a, benign (f a).
Proof.
  destruct o; try discriminate; intros _; eexists; (split; [reflexivity |]).
  apply op_neg_benign.
Qed.

Lemma disallowed_binop_entry o :
  allowed_binop o = false ->
  getitem rt (_ALLOWED rt) (BinCls o) = Raise (KeyError (opclass_name (BinCls o))).
Proof. destruct o; try discriminate; reflexivity. Qed.

Lemma disallowed_unop_entry o :
  allowed_unop o = false ->
  getitem rt (_ALLOWED rt) (UnCls o) = Raise (KeyError (opclass_name (UnCls o))).
Proof. destruct o; try discriminate; reflexivity. Qed.

Lemma as_Num_number c : is_number c = true -> exists v, as_Num rt c = Some v.
Proof. destruct c; try discriminate; intros _; eexists; reflexivity. Qed.

Lemma as_Num_other c : is_number c = false -> as_Num rt c = None.
Proof. destruct c; try discriminate; reflexivity. Qed.

(** An expression that contains something unsupported is never given a
    value. *)
Lemma eval_rejects (e : expr) :
  contains_unsupported e = true -> raises (_eval rt e).
Proof.
  induction e as [c | o a IH | l IHl o r IHr | | | | | |]; simpl; intros H;
    try (eexists; reflexivity).
  - apply negb_true_iff in H. rewrite (as_Num_other _ H). eexists; reflexivity.
  - destruct (allowed_unop o) eqn:Eo.
    + destruct (allowed_unop_entry o Eo) as (f & -> & _). simpl in H.
      cbn [mbind result_bind]. unbind.
      destruct (IH H) as [x ->]. eexists; reflexivity.
    + rewrite (disallowed_unop_entry o Eo). eexists; reflexivity.
  - destruct (allowed_binop o) eqn:Eo.
    + destruct (allowed_binop_entry o Eo) as (f & -> & _). simpl in H. unbind.
      apply orb_true_iff in H as [H | H].
      * destruct (IHl H) as [x ->]. eexists; reflexivity.
      * destruct (_eval rt l); [| eexists; reflexivity].
        destruct (IHr H) as [x ->]. eexists; reflexivity.
    + rewrite (disallowed_binop_entry o Eo). eexists; reflexivity.
Qed.

(** With every operator on the allow-list, evaluation returns, raises
    [unsupported], or fails on the arithmetic; it returns only when nothing
    unsupported is inside. *)
Lemma eval_allowed_operators (e : expr) :
  operators_allowed e = true ->
  benign (_eval rt e) \/ _eval rt e = Raise unsupported.
Proof.
  induction e as [c | o a IH | l IHl o r IHr | | | | | |]; simpl; intros H;
    try (right; reflexivity).
  - destruct (as_Num rt c); [left; apply benign_ok | right; reflexivity].
  - apply andb_true_iff in H as [Ho Ha].
    destruct (allowed_unop_entry o Ho) as (f & -> & Hf). unbind.
    destruct (IH Ha) as [[[v ->] | [-> | ->]] | ->].
    + left. apply Hf.
    + left. right. left. reflexivity.
    + left. right. right. reflexivity.
    + right. reflexivity.
  - apply andb_true_iff in H as [H Hr]. apply andb_true_iff in H as [Ho Hl].
    destruct (allowed_binop_entry o Ho) as (f & -> & Hf). unbind.
    destruct (IHl Hl) as [[[v ->] | [-> | ->]] | ->].
    + destruct (IHr Hr) as [[[v' ->] | [-> | ->]] | ->].
      * left. apply Hf.
      * left. right. left. reflexivity.
      * left. right. right. reflexivity.
      * right. reflexivity.
    + left. right. left. reflexivity.
    + left. right. right. reflexivity.
    + right. reflexivity.
Qed.


(** On the integer fragment the evaluator computes the exact integer. *)
Lemma eval_int_value (e : expr) (z : Z) :
  int_value e = Some z -> _eval rt e = Ok (VInt z).
Proof.
  revert z.
  induction e as [c | o a IH | l IHl o r IHr | | | | | |]; simpl; intros z H;
    try discriminate.
  - destruct c; try discriminate. injection H as <-. reflexivity.
  - destruct o; try discriminate.
    destruct (int_value a) as [n |]; [| discriminate]. injection H as <-.
    rewrite (IH n eq_refl). reflexivity.
  - destruct o; try discriminate;
      (destruct (int_value l) as [a |]; [| discriminate]);
      (destruct (int_value r) as [b |]; [| discriminate]);
      simpl in H; rewrite (IHl a eq_refl), (IHr b eq_refl).
    + injection H as <-. reflexivity.
    + injection H as <-. reflexivity.
    + injection H as <-. reflexivity.
    + destruct (0 <=? b) eqn:E; [| discriminate]. injection H as <-.
      change (op_pow rt (VInt a) (VInt b) = Ok (VInt (a ^ b))).
      unfold op_pow, arith. rewrite E. reflexivity.
Qed.


Lemma calc_raise (e : expr) (x : exn) : _eval rt e = Raise x -> calc rt e = Raise x.
Proof. unfold calc. intros ->. reflexivity. Qed.

Lemma node_kind_rejected (e : expr) :
  node_kind_ok e = false -> _eval rt e = Raise unsupported.
Proof.
  destruct e; simpl; try discriminate; try reflexivity.
  intros H. rewrite (as_Num_other _ H). reflexivity.
Qed.

End WithRuntime.

(** ["__import__('os')"] and ["1 and 2"] are rejected with the
    [unsupported] error; ["1 % 2"] fails in the table lookup. *)
Example calc_import_os rt : calc rt e_import_os = Raise unsupported.
Proof. reflexivity. Qed.

Example calc_1_and_2 rt : calc rt e_1_and_2 = Raise unsupported.
Proof. reflexivity. Qed.

Example calc_1_mod_2 rt : calc rt e_1_mod_2 = Raise (KeyError "Mod").
Proof. reflexivity. Qed.

Example calc_10_pow_400 rt : calc rt e_10_pow_400 = Raise OverflowError.
Proof. vm_compute. reflexivity. Qed.

(** C1, as stated, fails: ["1/0 + x"] contains a name, and [calc] fails
    with [ZeroDivisionError], raised by the left operand before the name is
    reached, not with the [unsupported] error. *)
Lemma calc_unsupported_counterexample :
  contains_unsupported e_div0_plus_x = true /\
  forall rt, calc rt e_div0_plus_x = Raise ZeroDivisionError /\
             calc rt e_div0_plus_x <> Raise unsupported.
Proof.
  split; [reflexivity |]. intros rt. split; [reflexivity | discriminate].
Qed.

(** C1 (amended): an expression whose parsed form contains a node kind
    outside {Number, UnaryOp, BinaryOp} or an operator outside the
    allow-list is never given a value: [calc] fails.  There is no validation
    pass; the failure is the first one met in evaluation order.  A node of a
    disallowed kind at the root fails with the [unsupported] error, and when
    every operator is on the allow-list the failure is the [unsupported]
    error unless an operand evaluated earlier fails on the arithmetic
    ([ZeroDivisionError], [OverflowError]). *)
Theorem calc_rejects_unsupported (e : expr) (H : contains_unsupported e = true) :
  forall rt,
    raises (calc rt e) /\
    (node_kind_ok e = false -> calc rt e = Raise unsupported) /\
    (operators_allowed e = true ->
     calc rt e = Raise unsupported \/
     calc rt e = Raise ZeroDivisionError \/
     calc rt e = Raise OverflowError).
Proof.
  intros rt. destruct (eval_rejects rt e H) as [x Hx].
  split; [exists x; now apply calc_raise |].
  split.
  - intros Hk. apply calc_raise. now apply node_kind_rejected.
  - intros Ho.
    destruct (eval_allowed_operators rt e Ho) as [[[v Hv] | [Hz | Hz]] | Hu].
    + congruence.
    + right. left. now apply calc_raise.
    + right. right. now apply calc_raise.
    + left. now apply calc_raise.
Qed.

Lemma calc_rejects_unsupported_witness :
  contains_unsupported e_import_os = true /\
  forall rt,
    raises (calc rt e_import_os) /\
    (node_kind_ok e_import_os = false -> calc rt e_import_os = Raise unsupported) /\
    (operators_allowed e_import_os = true ->
     calc rt e_import_os = Raise unsupported \/
     calc rt e_import_os = Raise ZeroDivisionError \/
     calc rt e_import_os = Raise OverflowError).
Proof.
  split; [reflexivity | apply (calc_rejects_unsupported e_import_os); reflexivity].
Defined.



End CalcFacts.

(** ** The process runner *)

Module RunnerFacts.
Import Runner Spec Samples Notions RunnerSpec.

Lemma drop_chars_split (k : nat) (s : string) :
  exists older, s = older ++ drop_chars k s /\
                String.length (drop_chars k s) = (String.length s - k)%nat.
Proof.
  revert s. induction k as [| k IH]; intros s.
  - exists "". split; [reflexivity |]. destruct s; simpl; lia.
  - destruct s as [| c s]; simpl.
    + exists "". split; reflexivity.
    + destruct (IH s) as (older & Hs & Hl).
      exists (String c older). split; [| exact Hl].
      change (String c s = String c (older ++ drop_chars k s)). f_equal. exact Hs.
Qed.

Lemma last_chars_keeps_last (n : nat) (s : string) : keeps_last n s (last_chars n s).
Proof.
  unfold keeps_last, last_chars.
  destruct (drop_chars_split (String.length s - n) s) as (older & Hs & Hl).
  exists older. split; [exact Hs | lia].
Qed.

Lemma last_chars_short (n : nat) (s : string) :
  (String.length s <= n)%nat -> last_chars n s = s.
Proof.
  intros H. unfold last_chars.
  replace (String.length s - n)%nat with 0%nat by lia. destruct s; reflexivity.
Qed.

Lemma str_or_working_dir {doc : Type} (w : World doc) (cwd : option string) :
  str_or cwd (PROJECT_ROOT w) = working_dir w cwd.
Proof. destruct cwd as [[| c d] |]; reflexivity. Qed.

Lemma str_or_captured (stream : option string) : str_or stream "" = captured stream.
Proof. destruct stream as [[| c d] |]; reflexivity. Qed.

Lemma working_dir_root {doc : Type} (w : World doc) :
  working_dir w (Some (PROJECT_ROOT w)) = PROJECT_ROOT w.
Proof. unfold working_dir. destruct (decide (PROJECT_ROOT w = "")); reflexivity. Qed.

Lemma length_append (s t : string) :
  String.length (s ++ t) = (String.length s + String.length t)%nat.
Proof.
  induction s as [| c s IH]; [reflexivity |].
  change (String.length (String c (s ++ t)) = S (String.length s + String.length t)).
  cbn [String.length]. now rewrite IH.
Qed.

Lemma run_returns {doc : Type} (w : World doc) (cmd : list string) (cwd : option string)
    (proc : CompletedProcess) :
  subprocess_run w cmd (working_dir w cwd) = Ok proc ->
  exists r,
    _run w cmd cwd = Ok r /\
    returncode r = proc_returncode proc /\
    keeps_last 2000 (captured (proc_stdout proc)) (stdout_tail r) /\
    keeps_last 2000 (captured (proc_stderr proc)) (stderr_tail r).
Proof.
  intros Hp. unfold _run. rewrite str_or_working_dir, Hp.
  cbn [mbind result_bind]. eexists. split; [reflexivity |].
  cbn [returncode stdout_tail stderr_tail]. rewrite !str_or_captured.
  split; [reflexivity |]. split; apply last_chars_keeps_last.
Qed.

(** C9: whatever exit code the build ends with, [_run] raises nothing: it
    returns the result dict with that [returncode], and [stdout_tail] and
    [stderr_tail] hold the last 2000 characters of the captured stdout and
    stderr (all of it when shorter, nothing for a stream that was not
    captured), the older output being cut off.  [maven_test_tool] returns in
    the same way what the Maven command line gave. *)
Theorem run_reports_exit_code {doc : Type} (w : World doc)
    (cmd : list string) (cwd : option string) (proc : CompletedProcess)
    (H : subprocess_run w cmd (working_dir w cwd) = Ok proc) :
  (exists r,
     _run w cmd cwd = Ok r /\
     returncode r = proc_returncode proc /\
     keeps_last 2000 (captured (proc_stdout proc)) (stdout_tail r) /\
     keeps_last 2000 (captured (proc_stderr proc)) (stderr_tail r)) /\
  (forall test_filter proc',
     subprocess_run w (maven_cmd w test_filter) (PROJECT_ROOT w) = Ok proc' ->
     exists r,
       maven_test_tool w test_filter = Ok r /\
       returncode r = proc_returncode proc' /\
       keeps_last 2000 (captured (proc_stdout proc')) (stdout_tail r) /\
       keeps_last 2000 (captured (proc_stderr proc')) (stderr_tail r)) /\
  (forall out tail, keeps_last 2000 out tail ->
     (String.length out <= 2000)%nat -> tail = out) /\
  (exists r,
     _run (world build_long (@Missing Xml.Element)) ["mvn"; "test"] None = Ok r /\
     returncode r = 3 /\
     stdout_tail r = String.concat "" (List.repeat "0123456789" 200) /\
     stderr_tail r = "BUILD FAILURE").
Proof.
  split; [exact (run_returns w cmd cwd proc H) |].
  split.
  { intros test_filter proc' Hp.
    assert (Htool : maven_test_tool w test_filter =
                    _run w (maven_cmd w test_filter) (Some (PROJECT_ROOT w))).
    { unfold maven_test_tool, maven_test, run_maven, maven_cmd, mvn_path.
      destruct test_filter; reflexivity. }
    rewrite Htool. apply run_returns. rewrite working_dir_root. exact Hp. }
  split.
  { intros out tail (older & Hs & Hl) Hshort.
    assert (Holder : older = "").
    { apply (f_equal String.length) in Hs. rewrite length_append in Hs.
      destruct older; [reflexivity | cbn [String.length] in Hs; lia]. }
    subst older. symmetry. exact Hs. }
  eexists. split; [reflexivity |]. repeat split; vm_compute; reflexivity.
Qed.

Lemma run_reports_exit_code_witness :
  subprocess_run (world build_failed (@Missing Xml.Element)) ["mvn"; "test"]
    (working_dir (world build_failed (@Missing Xml.Element)) None) = Ok build_failed /\
  exists r,
    _run (world build_failed (@Missing Xml.Element)) ["mvn"; "test"] None = Ok r /\
    returncode r = proc_returncode build_failed /\
    keeps_last 2000 (captured (proc_stdout build_failed)) (stdout_tail r) /\
    keeps_last 2000 (captured (proc_stderr build_failed)) (stderr_tail r).
Proof.
  split; [reflexivity |].
  apply (run_reports_exit_code (world build_failed Missing) ["mvn"; "test"] None build_failed).
  reflexivity.
Defined.

(** A failed build is reported as data. *)
Example maven_test_tool_failed_build :
  maven_test_tool (world build_failed (@Missing Xml.Element)) "" =
  Ok {| command := "cmd /c mvn -f /repo/codebase/pom.xml test";
        cwd := "/repo";
        returncode := 1;
        stdout_tail := "BUILD FAILURE";
        stderr_tail := "" |}.
Proof. reflexivity. Qed.

End RunnerFacts.

(** ** The coverage aggregation *)

Module CoverageFacts.
Import PyNum Runner Xml Coverage Spec Samples.

(** *** Dicts of counts *)

Lemma getitem_some {V} (d : gmap string V) (k : string) (v : V) :
  d !! k = Some v -> getitem d k = Ok v.
Proof. unfold getitem. intros ->. reflexivity. Qed.

Lemma counters_of_line lc lm bc bm : counters_of lc lm bc bm !! "LINE" = Some (tally lc lm).
Proof. reflexivity. Qed.

Lemma counters_of_branch lc lm bc bm : counters_of lc lm bc bm !! "BRANCH" = Some (tally bc bm).
Proof. reflexivity. Qed.

Lemma counters_of_other lc lm bc bm t :
  t <> "LINE" -> t <> "BRANCH" -> counters_of lc lm bc bm !! t = None.
Proof.
  intros Hl Hb. unfold counters_of.
  rewrite lookup_insert_ne by congruence. rewrite lookup_insert_ne by congruence.
  apply lookup_empty.
Qed.

Lemma tally_covered c m : tally c m !! "covered" = Some c.
Proof. reflexivity. Qed.

Lemma tally_missed c m : tally c m !! "missed" = Some m.
Proof. reflexivity. Qed.

Lemma set_covered c m x : <["covered" := x]> (tally c m) = tally x m.
Proof. reflexivity. Qed.

Lemma set_missed c m x : <["missed" := x]> (tally c m) = tally c x.
Proof. reflexivity. Qed.

Lemma pct_line lc lm bc bm : pct (counters_of lc lm bc bm) "LINE" = percentage lc lm.
Proof. reflexivity. Qed.

Lemma pct_branch lc lm bc bm : pct (counters_of lc lm bc bm) "BRANCH" = percentage bc bm.
Proof. reflexivity. Qed.

(** *** One counter *)

Lemma is_int_parsed (text : option string) :
  is_int text = true -> exists t n, text = Some t /\ int_of_str t = Ok n.
Proof.
  destruct text as [t |]; simpl; [| discriminate].
  destruct (int_of_str t) as [n |] eqn:E; [| discriminate]. eauto.
Qed.

Lemma count_of_counter kind field c t :
  tag c = "counter" -> attrib c !! "type" = Some t ->
  count_of kind field c =
    if bool_decide (t = kind) then
      match attrib c !! field with
      | Some text => match int_of_str text with Ok n => n | Raise _ => 0 end
      | None => 0
      end
    else 0.
Proof.
  intros Htag Ht. unfold count_of. rewrite Ht.
  rewrite (bool_decide_eq_true_2 _ Htag). cbn [andb].
  destruct (decide (t = kind)) as [-> | Hne].
  - rewrite !bool_decide_eq_true_2 by reflexivity. reflexivity.
  - rewrite (bool_decide_eq_false_2 (Some t = Some kind)) by congruence.
    rewrite (bool_decide_eq_false_2 (t = kind)) by assumption. reflexivity.
Qed.

Lemma count_step_adds lc lm bc bm c :
  tag c = "counter" -> readable_counter c = true ->
  count_step (counters_of lc lm bc bm) c =
  Ok (counters_of (lc + count_of "LINE" "covered" c) (lm + count_of "LINE" "missed" c)
                  (bc + count_of "BRANCH" "covered" c) (bm + count_of "BRANCH" "missed" c)).
Proof.
  intros Htag Hr. unfold readable_counter in Hr.
  destruct (attrib c !! "type") as [t |] eqn:Et; [| discriminate].
  rewrite !(count_of_counter _ _ c t Htag Et).
  unfold count_step, getitem at 1. rewrite Et. cbn [mbind result_bind].
  destruct (decide (t = "LINE")) as [-> | Hl]; [| destruct (decide (t = "BRANCH")) as [-> | Hb]].
  - cbn in Hr. apply andb_true_iff in Hr as [Hc Hm].
    apply is_int_parsed in Hc as (tc & nc & Ec & Enc).
    apply is_int_parsed in Hm as (tm & nm & Em & Enm).
    unfold add_to, getitem. rewrite Ec, Em.
    cbn. rewrite Enc. cbn. rewrite Enm. cbn.
    rewrite !Z.add_0_r. reflexivity.
  - cbn in Hr. apply andb_true_iff in Hr as [Hc Hm].
    apply is_int_parsed in Hc as (tc & nc & Ec & Enc).
    apply is_int_parsed in Hm as (tm & nm & Em & Enm).
    unfold add_to, getitem. rewrite Ec, Em.
    cbn. rewrite Enc. cbn. rewrite Enm. cbn.
    rewrite !Z.add_0_r. reflexivity.
  - rewrite (counters_of_other _ _ _ _ t Hl Hb).
    rewrite (bool_decide_eq_false_2 (is_Some None)) by (intros [? ?]; discriminate).
    rewrite !(bool_decide_eq_false_2 (t = _)) by assumption.
    rewrite !Z.add_0_r. reflexivity.
Qed.

(** *** The loop over the counters *)

Lemma aggregate_loop (l : list Element) : forall lc lm bc bm,
  Forall (fun c => tag c = "counter") l ->
  forallb readable_counter l = true ->
  for_each count_step l (counters_of lc lm bc bm) =
  Ok (counters_of (lc + sum_of (count_of "LINE" "covered") l)
                  (lm + sum_of (count_of "LINE" "missed") l)
                  (bc + sum_of (count_of "BRANCH" "covered") l)
                  (bm + sum_of (count_of "BRANCH" "missed") l)).
Proof.
  induction l as [| c l IH]; intros lc lm bc bm Htag Hr.
  - simpl. rewrite !Z.add_0_r. reflexivity.
  - inversion Htag as [| ? ? Hc Hl]; subst.
    cbn [forallb] in Hr. apply andb_true_iff in Hr as [Hrc Hrl].
    cbn [for_each]. rewrite (count_step_adds _ _ _ _ c Hc Hrc).
    cbn [mbind result_bind]. rewrite (IH _ _ _ _ Hl Hrl).
    cbn [sum_of]. rewrite !Z.add_assoc. reflexivity.
Qed.

(** *** The document tree *)

Lemma sum_of_app f (l1 l2 : list Element) :
  sum_of f (l1 ++ l2) = sum_of f l1 + sum_of f l2.
Proof.
  induction l1 as [| c l1 IH]; simpl; [reflexivity |].
  rewrite IH. lia.
Qed.

Lemma iter_unfold (e : Element) : iter e = e :: flat_map iter (children e).
Proof. destruct e; reflexivity. Qed.

Lemma sum_below_unfold f (e : Element) :
  sum_below f e = sum_of (fun c => f c + sum_below f c) (children e).
Proof.
  destruct e as [t a cs]. cbn [sum_below children].
  induction cs as [| c cs IH]; [reflexivity |]. cbn [sum_of]. rewrite <- IH. lia.
Qed.

(** Induction over a document: a property of all children carries over to
    the parent. *)
Lemma Element_tree_ind (P : Element -> Prop) :
  (forall e, Forall P (children e) -> P e) -> forall e, P e.
Proof.
  intros H. fix IH 1. intros [t a cs]. apply H. cbn [children].
  induction cs as [| c cs IHcs]; constructor; [apply IH | exact IHcs].
Qed.

(** Summing over the flattened document is summing over the tree. *)
Lemma sum_of_descendants f (e : Element) :
  sum_of f (flat_map iter (children e)) = sum_below f e.
Proof.
  induction e as [e IH] using Element_tree_ind.
  rewrite sum_below_unfold.
  induction (children e) as [| c cs IHcs]; [reflexivity |].
  inversion IH as [| ? ? Hc Hcs]; subst.
  cbn [flat_map sum_of]. rewrite sum_of_app, iter_unfold. cbn [sum_of].
  rewrite Hc, (IHcs Hcs). lia.
Qed.

Lemma sum_of_filter_tag f (name : string) (l : list Element) :
  (forall c, tag c <> name -> f c = 0) ->
  sum_of f (List.filter (fun d => bool_decide (tag d = name)) l) = sum_of f l.
Proof.
  intros Hf. induction l as [| c l IH]; simpl; [reflexivity |].
  destruct (decide (tag c = name)) as [Ht | Ht].
  - rewrite (bool_decide_eq_true_2 _ Ht). simpl. rewrite IH. reflexivity.
  - rewrite (bool_decide_eq_false_2 _ Ht). rewrite IH, (Hf c Ht). lia.
Qed.

Lemma count_of_not_counter kind field c : tag c <> "counter" -> count_of kind field c = 0.
Proof.
  intros H. unfold count_of. rewrite (bool_decide_eq_false_2 _ H). reflexivity.
Qed.

Lemma total_is_sum kind field root :
  sum_of (count_of kind field) (iterfind_desc "counter" root) = total kind field root.
Proof.
  unfold iterfind_desc, total.
  rewrite sum_of_filter_tag by (intros c; apply count_of_not_counter).
  apply sum_of_descendants.
Qed.

(** The flattened document holds exactly the elements below the root. *)
Lemma in_descendants_below (e d : Element) :
  In d (flat_map iter (children e)) -> below d e.
Proof.
  induction e as [e IH] using Element_tree_ind.
  intros H. apply in_flat_map in H as (c & Hc & Hd).
  rewrite iter_unfold in Hd. destruct Hd as [<- | Hd].
  - now apply below_child.
  - apply below_deeper with (c := c); [exact Hc |].
    rewrite Forall_forall in IH. apply (IH c); [| exact Hd].
    apply list_elem_of_In. exact Hc.
Qed.

Lemma below_in_descendants (e d : Element) :
  below d e -> In d (flat_map iter (children e)).
Proof.
  induction 1 as [c e Hc | d c e Hc Hd IH]; apply in_flat_map; exists c;
    (split; [exact Hc |]); rewrite iter_unfold.
  - left. reflexivity.
  - right. exact IH.
Qed.

Lemma iterfind_desc_below (name : string) (e d : Element) :
  In d (iterfind_desc name e) <-> below d e /\ tag d = name.
Proof.
  unfold iterfind_desc. rewrite List.filter_In. split.
  - intros [H Ht]. split; [now apply in_descendants_below |].
    now apply bool_decide_eq_true_1 in Ht.
  - intros [H Ht]. split; [now apply below_in_descendants |].
    now apply bool_decide_eq_true_2.
Qed.

Lemma iterfind_desc_tag (name : string) (e : Element) :
  Forall (fun c => tag c = name) (iterfind_desc name e).
Proof.
  apply List.Forall_forall. intros c Hc. now apply iterfind_desc_below in Hc.
Qed.

(** *** The summary *)

Lemma aggregate_totals (root : Element) :
  forallb readable_counter (iterfind_desc "counter" root) = true ->
  aggregate root =
  Ok (counters_of (total "LINE" "covered" root) (total "LINE" "missed" root)
                  (total "BRANCH" "covered" root) (total "BRANCH" "missed" root)).
Proof.
  intros H. unfold aggregate. change counters0 with (counters_of 0 0 0 0).
  rewrite (aggregate_loop _ 0 0 0 0 (iterfind_desc_tag "counter" root) H).
  rewrite !total_is_sum. reflexivity.
Qed.

Lemma percentage_of_nothing (c m : Z) : c + m = 0 -> percentage c m = Ok 0%float.
Proof. intros H. unfold percentage. rewrite H. reflexivity. Qed.

(** C5: the aggregation sums [covered] and [missed] separately for [LINE]
    and for [BRANCH] over every [counter] element below the root of the
    document, at whatever depth it lies (report, package, class or method
    level); counters at several levels are all added, so the same lines are
    counted more than once. *)
Theorem aggregate_sums_every_counter (root : Element)
    (H : forallb readable_counter (iterfind_desc "counter" root) = true) :
  aggregate root =
    Ok (counters_of (total "LINE" "covered" root) (total "LINE" "missed" root)
                    (total "BRANCH" "covered" root) (total "BRANCH" "missed" root)) /\
  (forall kind field,
     total kind field root = sum_of (count_of kind field) (iterfind_desc "counter" root)) /\
  (forall c, In c (iterfind_desc "counter" root) <-> below c root /\ tag c = "counter").
Proof.
  split; [now apply aggregate_totals |].
  split; [intros; symmetry; apply total_is_sum |].
  intros c. apply iterfind_desc_below.
Qed.

Lemma aggregate_sums_every_counter_witness :
  forallb readable_counter (iterfind_desc "counter" report_two_levels) = true /\
  (aggregate report_two_levels =
     Ok (counters_of (total "LINE" "covered" report_two_levels)
                     (total "LINE" "missed" report_two_levels)
                     (total "BRANCH" "covered" report_two_levels)
                     (total "BRANCH" "missed" report_two_levels)) /\
   (forall kind field,
      total kind field report_two_levels =
      sum_of (count_of kind field) (iterfind_desc "counter" report_two_levels)) /\
   (forall c, In c (iterfind_desc "counter" report_two_levels) <->
              below c report_two_levels /\ tag c = "counter")).
Proof.
  split; [vm_compute; reflexivity |].
  apply (aggregate_sums_every_counter report_two_levels). vm_compute. reflexivity.
Defined.

(** The class-level and the package-level counter are both added. *)
Example two_levels_counted_twice :
  aggregate report_two_levels = Ok (counters_of 16 4 0 0).
Proof. vm_compute. reflexivity. Qed.

(** *** The percentages, checked against exact arithmetic *)

Lemma percentages_checked : Reference.all_agree Reference.small_count = true.
Proof. vm_compute. reflexivity. Qed.

Lemma in_upto (n : nat) (z : Z) : 0 <= z <= Z.of_nat n -> In z (Reference.upto n).
Proof.
  intros Hz. unfold Reference.upto. apply in_map_iff. exists (Z.to_nat z).
  split; [lia |]. apply in_seq. lia.
Qed.

Lemma all_agree_spec (n : nat) (c m : Z) :
  Reference.all_agree n = true ->
  In c (Reference.upto n) -> In m (Reference.upto n) -> Reference.agrees c m = true.
Proof.
  unfold Reference.all_agree. intros H Hc Hm.
  apply (proj1 (List.forallb_forall _ _)) with (x := c) in H; [| exact Hc].
  apply (proj1 (List.forallb_forall _ _)) with (x := m) in H; [| exact Hm].
  exact H.
Qed.

(** For counts up to 100 the percentage of the code is the one of exact
    arithmetic: the quotient rounded to the nearest number of
    hundredths. *)
Lemma percentage_small (c m : Z) :
  0 <= c <= 100 -> 0 <= m <= 100 -> percentage c m = Ok (Reference.percent c m).
Proof.
  intros Hc Hm.
  pose proof (all_agree_spec Reference.small_count c m percentages_checked
                (in_upto Reference.small_count c Hc)
                (in_upto Reference.small_count m Hm)) as H.
  unfold Reference.agrees in H. destruct (percentage c m) as [x | e]; [| discriminate].
  apply FloatAxioms.Leibniz.eqb_spec in H. congruence.
Qed.

(** C6: with the report in place, each percentage of the summary is
    [round(100 * covered / (covered + missed), 2)] over the counts summed
    for its kind, and it is 0.0, with no division, when covered + missed is
    zero.  For sums up to 100 the percentage is the quotient rounded, in
    exact arithmetic, to the nearest number of hundredths: 1 of 3 gives
    33.33, 2 of 3 gives 66.67, 1 of 32 gives 3.12 and 3 of 32 gives 9.38
    (ties to even).  A report whose only [LINE] counter has 8 covered and 2
    missed gives the line percentage 80.0. *)
Theorem summary_percentages (w : World Element) (out : CompletedProcess) (root : Element)
    (Hrun : subprocess_run w (report_cmd w) (PROJECT_ROOT w) = Ok out)
    (Hfile : fs w (report_path w) = Parsed root)
    (Hread : forallb readable_counter (iterfind_desc "counter" root) = true) :
  maven_test_and_report w =
    (l ← percentage (total "LINE" "covered" root) (total "LINE" "missed" root);
     b ← percentage (total "BRANCH" "covered" root) (total "BRANCH" "missed" root);
     Ok {| returncode := proc_returncode out;
           summary := <["branch_coverage_pct" := b]> (<["line_coverage_pct" := l]> ∅) |}) /\
  (forall c m, c + m = 0 -> percentage c m = Ok 0%float) /\
  percentage 8 2 = Ok 80%float /\
  maven_test_and_report (world build_ok (Parsed report_8_2)) =
    Ok {| returncode := 0;
          summary := <["branch_coverage_pct" := 0%float]>
                       (<["line_coverage_pct" := 80%float]> ∅) |} /\
  (forall c m, 0 <= c <= 100 -> 0 <= m <= 100 ->
               percentage c m = Ok (Reference.percent c m)) /\
  (0 <= total "LINE" "covered" root <= 100 -> 0 <= total "LINE" "missed" root <= 100 ->
   0 <= total "BRANCH" "covered" root <= 100 -> 0 <= total "BRANCH" "missed" root <= 100 ->
   maven_test_and_report w =
     Ok {| returncode := proc_returncode out;
           summary :=
             <["branch_coverage_pct" :=
                 Reference.percent (total "BRANCH" "covered" root)
                                   (total "BRANCH" "missed" root)]>
               (<["line_coverage_pct" :=
                    Reference.percent (total "LINE" "covered" root)
                                      (total "LINE" "missed" root)]> ∅) |}) /\
  percentage 1 2 = Ok 33.33%float /\
  percentage 2 1 = Ok 66.67%float /\
  percentage 1 31 = Ok 3.12%float /\
  percentage 3 29 = Ok 9.38%float /\
  percentage 1 7 = Ok 12.5%float.
Proof.
  assert (Heq : maven_test_and_report w =
    (l ← percentage (total "LINE" "covered" root) (total "LINE" "missed" root);
     b ← percentage (total "BRANCH" "covered" root) (total "BRANCH" "missed" root);
     Ok {| returncode := proc_returncode out;
           summary := <["branch_coverage_pct" := b]> (<["line_coverage_pct" := l]> ∅) |})).
  { unfold maven_test_and_report. cbv zeta. rewrite Hrun, Hfile. cbn [mbind result_bind].
    unfold summarize. rewrite (aggregate_totals root Hread). cbn [mbind result_bind].
    rewrite pct_line, pct_branch.
    destruct (percentage (total "LINE" "covered" root) (total "LINE" "missed" root));
      cbn [mbind result_bind]; [| reflexivity].
    destruct (percentage (total "BRANCH" "covered" root) (total "BRANCH" "missed" root));
      reflexivity. }
  split; [exact Heq |].
  split; [exact percentage_of_nothing |].
  split; [vm_compute; reflexivity |].
  split; [vm_compute; reflexivity |].
  split; [exact percentage_small |].
  split.
  { intros H1 H2 H3 H4. rewrite Heq.
    rewrite (percentage_small _ _ H1 H2), (percentage_small _ _ H3 H4). reflexivity. }
  repeat split; vm_compute; reflexivity.
Qed.

Lemma summary_percentages_witness :
  subprocess_run (world build_ok (Parsed report_8_2))
    (report_cmd (world build_ok (Parsed report_8_2)))
    (PROJECT_ROOT (world build_ok (Parsed report_8_2))) = Ok build_ok /\
  fs (world build_ok (Parsed report_8_2)) (report_path (world build_ok (Parsed report_8_2)))
    = Parsed report_8_2 /\
  forallb readable_counter (iterfind_desc "counter" report_8_2) = true /\
  maven_test_and_report (world build_ok (Parsed report_8_2)) =
    (l ← percentage (total "LINE" "covered" report_8_2) (total "LINE" "missed" report_8_2);
     b ← percentage (total "BRANCH" "covered" report_8_2) (total "BRANCH" "missed" report_8_2);
     Ok {| returncode := proc_returncode build_ok;
           summary := <["branch_coverage_pct" := b]> (<["line_coverage_pct" := l]> ∅) |}).
Proof.
  split; [reflexivity |].
  split; [reflexivity |].
  split; [vm_compute; reflexivity |].
  refine (proj1 (summary_percentages (world build_ok (Parsed report_8_2)) build_ok
                   report_8_2 _ _ _));
    first [reflexivity | vm_compute; reflexivity].
Defined.

(** C4, as stated, fails: without a report file the summary is not a
    summary of zeros, it is empty. *)
Lemma missing_report_counterexample :
  fs (world build_failed Missing) (report_path (world build_failed Missing)) = Missing /\
  exists r,
    maven_test_and_report (world build_failed Missing) = Ok r /\
    summary r !! "line_coverage_pct" = None /\
    summary r <> zero_summary.
Proof.
  split; [reflexivity |].
  exists {| returncode := 1; summary := ∅ |}.
  split; [reflexivity |]. split; [reflexivity |].
  cbn [summary]. intros H.
  apply (f_equal (fun m : gmap string float => m !! "line_coverage_pct")) in H.
  vm_compute in H. discriminate.
Qed.

(** C4 (amended): when the report file does not exist and the build command
    ran, [maven_test_and_report] raises nothing: it returns the exit code of
    the build command with an empty summary, one that holds no percentage
    at all. *)
Theorem missing_report_empty_summary (w : World Element) (out : CompletedProcess)
    (Hrun : subprocess_run w (report_cmd w) (PROJECT_ROOT w) = Ok out)
    (Hfile : fs w (report_path w) = Missing) :
  maven_test_and_report w = Ok {| returncode := proc_returncode out; summary := ∅ |}.
Proof.
  unfold maven_test_and_report. cbv zeta. rewrite Hrun, Hfile. reflexivity.
Qed.

Lemma missing_report_empty_summary_witness :
  subprocess_run (world build_failed Missing) (report_cmd (world build_failed Missing))
    (PROJECT_ROOT (world build_failed Missing)) = Ok build_failed /\
  fs (world build_failed Missing) (report_path (world build_failed Missing)) = Missing /\
  maven_test_and_report (world build_failed Missing) =
    Ok {| returncode := proc_returncode build_failed; summary := ∅ |}.
Proof.
  split; [reflexivity |]. split; [reflexivity |].
  apply (missing_report_empty_summary (world build_failed Missing) build_failed); reflexivity.
Defined.

(** C8: when the report file does not exist, [uncovered_classes] fails
    with the error that tells the caller to run [maven_test_and_report]
    first. *)
Theorem uncovered_classes_needs_report (w : World Element) (threshold : float)
    (Hfile : fs w (report_path w) = Missing) :
  uncovered_classes w threshold = Raise (RuntimeError "Run maven_test_and_report first.").
Proof. unfold uncovered_classes. rewrite Hfile. reflexivity. Qed.

Lemma uncovered_classes_needs_report_witness :
  fs (world build_ok Missing) (report_path (world build_ok Missing)) = Missing /\
  uncovered_classes (world build_ok Missing) 80%float =
    Raise (RuntimeError "Run maven_test_and_report first.").
Proof.
  split; [reflexivity |].
  apply (uncovered_classes_needs_report (world build_ok Missing) 80%float). reflexivity.
Defined.

(** *** The classes below the threshold *)

(** No float is strictly below itself. *)
Lemma ltb_irrefl (x : float) : (x <? x)%float = false.
Proof.
  rewrite ltb_spec. unfold SFltb.
  destruct (Prim2SF x) as [s | s | | s m e]; simpl; try reflexivity.
  - destruct s; reflexivity.
  - destruct s; rewrite Z.compare_refl;
      change (Pos.compare_cont Eq m m) with (Pos.compare m m);
      rewrite Pos.compare_refl; reflexivity.
Qed.

(** The loop appends, in order, the entries that pass the threshold test. *)
Lemma class_loop (threshold : float) (l : list Element) : forall low,
  for_each (class_step threshold) l low =
  entries ← collect class_entry l; Ok (low ++ List.filter (is_low threshold) entries)%list.
Proof.
  induction l as [| cls l IH]; intros low.
  - simpl. rewrite app_nil_r. reflexivity.
  - cbn [for_each collect].
    replace (class_step threshold low cls)
      with (entry ← class_entry cls;
            if is_low threshold entry then Ok (low ++ [entry])%list else Ok low)
      by reflexivity.
    destruct (class_entry cls) as [entry | x]; cbn [mbind result_bind]; [| reflexivity].
    destruct (is_low threshold entry) eqn:E; cbn [mbind result_bind]; rewrite IH;
      destruct (collect class_entry l) as [entries | x]; cbn [mbind result_bind];
      try reflexivity; cbn [List.filter]; rewrite E; [| reflexivity].
    rewrite <- app_assoc. reflexivity.
Qed.

Lemma uncovered_classes_filter (w : World Element) (root : Element) (threshold : float)
    (entries : list ClassCoverage) :
  fs w (report_path w) = Parsed root ->
  collect class_entry (iterfind_desc "class" root) = Ok entries ->
  uncovered_classes w threshold = Ok (List.filter (is_low threshold) entries).
Proof.
  intros Hfile Hc. unfold uncovered_classes. rewrite Hfile, class_loop, Hc. reflexivity.
Qed.

Lemma collect_In {A B} (f : A -> result B) (l : list A) (bs : list B) (a : A) (b : B) :
  collect f l = Ok bs -> In a l -> f a = Ok b -> In b bs.
Proof.
  revert bs. induction l as [| a' l IH]; intros bs Hc Ha Hb; [destruct Ha |].
  cbn [collect] in Hc.
  destruct (f a') as [b' |] eqn:Eb'; cbn [mbind result_bind] in Hc; [| discriminate].
  destruct (collect f l) as [bs' |]; cbn [mbind result_bind] in Hc; [| discriminate].
  injection Hc as <-. destruct Ha as [-> | Ha].
  - left. congruence.
  - right. now apply (IH bs').
Qed.

Lemma first_line_cov_without_line (cs : list Element) :
  forallb (fun c => match attrib c !! "type" with
                    | Some t => negb (bool_decide (t = "LINE"))
                    | None => false
                    end) cs = true ->
  first_line_cov cs = Ok 0%float.
Proof.
  induction cs as [| c cs IH]; [reflexivity |].
  cbn [forallb first_line_cov]. intros H. apply andb_true_iff in H as [Hc Hcs].
  destruct (attrib c !! "type") as [t |] eqn:Et; [| discriminate].
  rewrite (getitem_some _ _ _ Et). cbn [mbind result_bind].
  apply negb_true_iff in Hc. rewrite Hc. now apply IH.
Qed.

(** C3: on a class as JaCoCo writes it, with the counters of a method
    before the counters of the class, [uncovered_classes] takes the first
    [LINE] counter at any depth, the method's (1 of 2 lines, 50.0), not the
    first [LINE] counter directly under the class element (9 of 10 lines,
    90.0). *)
Theorem class_line_counter_taken_from_method :
  class_entry class_with_method = Ok {| class := "p.A"; line_coverage_pct := 50 |} /\
  direct_line_cov class_with_method = Ok 90%float /\
  uncovered_classes (world build_ok (Parsed (el "report" [] [class_with_method]))) 80%float
    = Ok [{| class := "p.A"; line_coverage_pct := 50 |}].
Proof. repeat split; vm_compute; reflexivity. Qed.

(** C7: [uncovered_classes] returns exactly the entries of the classes
    whose line coverage is strictly below the threshold, in the document
    order of the class elements; an entry whose percentage equals the
    threshold is left out.  With threshold 80.0 and classes at 95.0, 60.0
    and 80.0 the class at 60.0 alone is returned. *)
Theorem uncovered_classes_strictly_below (w : World Element) (root : Element)
    (threshold : float)
    (Hfile : fs w (report_path w) = Parsed root) :
  uncovered_classes w threshold =
    (entries ← collect class_entry (iterfind_desc "class" root);
     Ok (List.filter (fun e => (line_coverage_pct e <? threshold)%float) entries)) /\
  (forall entries, collect class_entry (iterfind_desc "class" root) = Ok entries ->
     exists low,
       uncovered_classes w threshold = Ok low /\
       (forall e, In e low <->
                  In e entries /\ (line_coverage_pct e <? threshold)%float = true) /\
       (forall e, line_coverage_pct e = threshold -> ~ In e low)) /\
  uncovered_classes (world build_ok (Parsed report_three_classes)) 80%float =
    Ok [{| class := "p.Low"; line_coverage_pct := 60 |}].
Proof.
  split.
  { unfold uncovered_classes. rewrite Hfile, class_loop. reflexivity. }
  split.
  { intros entries Hread.
    exists (List.filter (is_low threshold) entries).
    split; [exact (uncovered_classes_filter w root threshold entries Hfile Hread) |].
    split.
    - intros e. apply List.filter_In.
    - intros e He Hin. apply List.filter_In in Hin as [_ Hin]. unfold is_low in Hin.
      rewrite He, ltb_irrefl in Hin. discriminate. }
  vm_compute. reflexivity.
Qed.

Lemma uncovered_classes_strictly_below_witness :
  fs (world build_ok (Parsed report_three_classes))
     (report_path (world build_ok (Parsed report_three_classes)))
    = Parsed report_three_classes /\
  collect class_entry (iterfind_desc "class" report_three_classes) =
    Ok [{| class := "p.High"; line_coverage_pct := 95 |};
        {| class := "p.Low"; line_coverage_pct := 60 |};
        {| class := "p.Edge"; line_coverage_pct := 80 |}] /\
  uncovered_classes (world build_ok (Parsed report_three_classes)) 80%float =
    (entries ← collect class_entry (iterfind_desc "class" report_three_classes);
     Ok (List.filter (fun e => (line_coverage_pct e <? 80)%float) entries)).
Proof.
  split; [reflexivity |].
  split; [vm_compute; reflexivity |].
  apply (uncovered_classes_strictly_below (world build_ok (Parsed report_three_classes))
           report_three_classes 80%float).
  reflexivity.
Defined.

(** C10: a class element none of whose counters has type [LINE] gets the
    line coverage 0.0, and whenever the threshold is greater than 0 its
    entry is in the list [uncovered_classes] returns. *)
Theorem class_without_line_counter_is_low (w : World Element) (root cls : Element)
    (raw : string) (threshold : float) (entries : list ClassCoverage)
    (Hfile : fs w (report_path w) = Parsed root)
    (Hcls : In cls (iterfind_desc "class" root))
    (Hname : attrib cls !! "name" = Some raw)
    (Hnone : no_line_counter cls = true)
    (Hread : collect class_entry (iterfind_desc "class" root) = Ok entries)
    (Hpos : (0 <? threshold)%float = true) :
  class_entry cls = Ok {| class := dotted raw; line_coverage_pct := 0 |} /\
  exists low,
    uncovered_classes w threshold = Ok low /\
    In {| class := dotted raw; line_coverage_pct := 0 |} low.
Proof.
  assert (He : class_entry cls = Ok {| class := dotted raw; line_coverage_pct := 0 |}).
  { unfold class_entry. rewrite (getitem_some _ _ _ Hname). cbn [mbind result_bind].
    rewrite (first_line_cov_without_line _ Hnone). reflexivity. }
  split; [exact He |].
  eexists. split; [exact (uncovered_classes_filter w root threshold entries Hfile Hread) |].
  apply List.filter_In. split; [exact (collect_In _ _ _ _ _ Hread Hcls He) | exact Hpos].
Qed.

Lemma class_without_line_counter_is_low_witness :
  fs (world build_ok (Parsed report_without_line))
     (report_path (world build_ok (Parsed report_without_line))) = Parsed report_without_line /\
  In class_without_line (iterfind_desc "class" report_without_line) /\
  attrib class_without_line !! "name" = Some "p/Empty" /\
  no_line_counter class_without_line = true /\
  collect class_entry (iterfind_desc "class" report_without_line) =
    Ok [{| class := "p.Empty"; line_coverage_pct := 0 |}] /\
  (0 <? 80)%float = true /\
  (class_entry class_without_line =
     Ok {| class := dotted "p/Empty"; line_coverage_pct := 0 |} /\
   exists low,
     uncovered_classes (world build_ok (Parsed report_without_line)) 80%float = Ok low /\
     In {| class := dotted "p/Empty"; line_coverage_pct := 0 |} low).
Proof.
  split; [reflexivity |].
  split; [left; reflexivity |].
  split; [reflexivity |].
  split; [vm_compute; reflexivity |].
  split; [vm_compute; reflexivity |].
  split; [reflexivity |].
  apply (class_without_line_counter_is_low (world build_ok (Parsed report_without_line))
           report_without_line class_without_line "p/Empty" 80%float
           [{| class := "p.Empty"; line_coverage_pct := 0 |}]);
    first [reflexivity | vm_compute; reflexivity | left; reflexivity].
Defined.

End CoverageFacts.

(** ** More on the evaluator *)

Module CalcMore.
Import PyNum Calc Grammar Spec Samples Notions MoreSamples CalcFacts.

#[local] Arguments Calc.getitem : simpl never.

Lemma getitem_usub rt :
  getitem rt (_ALLOWED rt) (UnCls USub) = Ok (Fn1 rt (op_neg rt)).
Proof. reflexivity. Qed.

Lemma getitem_div rt :
  getitem rt (_ALLOWED rt) (BinCls Div) = Ok (Fn2 rt (op_truediv rt)).
Proof. reflexivity. Qed.

Lemma float_opp_involutive (x : float) : (- - x)%float = x.
Proof.
  apply Prim2SF_inj. rewrite !opp_spec.
  destruct (Prim2SF x); simpl; rewrite ?negb_involutive; reflexivity.
Qed.

(** With a complex operand the result is complex, if there is one. *)
Lemma arith_complex rt o fi ff (a b : value rt) :
  is_complex rt a || is_complex rt b = true ->
  raises (arith rt o fi ff a b) \/ exists c, arith rt o fi ff a b = Ok (VComplex c).
Proof.
  intros H. unfold arith.
  assert (Hc : raises (x ← to_complex rt a; y ← to_complex rt b;
                       z ← lift (complex_binop rt o x y); Ok (VComplex z)) \/
               exists c, (x ← to_complex rt a; y ← to_complex rt b;
                          z ← lift (complex_binop rt o x y); Ok (VComplex z))
                         = Ok (VComplex c)).
  { destruct (to_complex rt a) as [x | e]; [| left; eexists; reflexivity].
    destruct (to_complex rt b) as [y | e]; [| left; eexists; reflexivity].
    cbn [mbind result_bind].
    destruct (lift (complex_binop rt o x y)) as [z | e]; [| left; eexists; reflexivity].
    right. eexists. reflexivity. }
  destruct a, b; simpl in H; try discriminate; rewrite ?H; simpl; exact Hc.
Qed.

Lemma allowed_binop_arith rt (o : operator) :
  allowed_binop o = true ->
  exists fi ff, getitem rt (_ALLOWED rt) (BinCls o) = Ok (Fn2 rt (arith rt o fi ff)).
Proof. destruct o; try discriminate; intros _; do 2 eexists; reflexivity. Qed.

Lemma imag_is_complex rt (e : expr) :
  contains_imag e = true ->
  raises (_eval rt e) \/ exists c, _eval rt e = Ok (VComplex c).
Proof.
  induction e as [c | o a IH | l IHl o r IHr | | | | | |]; simpl; intros H;
    try discriminate.
  - destruct c; try discriminate. right. eexists. reflexivity.
  - destruct (allowed_unop o) eqn:Eo.
    + destruct o; try discriminate. rewrite getitem_usub. cbn [mbind result_bind].
      destruct (IH H) as [[x ->] | [c ->]].
      * left. eexists. reflexivity.
      * right. eexists. reflexivity.
    + rewrite (disallowed_unop_entry rt o Eo). left. eexists. reflexivity.
  - destruct (allowed_binop o) eqn:Eo.
    + destruct (allowed_binop_arith rt o Eo) as (fi & ff & ->). cbn [mbind result_bind].
      destruct (_eval rt l) as [va | x] eqn:El; [| left; eexists; reflexivity].
      destruct (_eval rt r) as [vb | y] eqn:Er; [| left; eexists; reflexivity].
      cbn [mbind result_bind call2]. apply arith_complex.
      apply orb_true_iff in H as [H | H].
      * destruct (IHl H) as [[x Hx] | [c Hc]]; [discriminate |].
        injection Hc as ->. reflexivity.
      * destruct (IHr H) as [[x Hx] | [c Hc]]; [discriminate |].
        injection Hc as ->. apply orb_true_r.
    + rewrite (disallowed_binop_entry rt o Eo). left. eexists. reflexivity.
Qed.

(** X1: an operator that is not in the table fails in the table lookup,
    before any operand is looked at: whatever the operands are, the error
    is the [KeyError] of the operator, as for ["(1/0) % x"]. *)
Theorem disallowed_operator_fails_first (l r a : expr) (o : operator) (u : unaryop)
    (Ho : allowed_binop o = false) (Hu : allowed_unop u = false) :
  forall rt,
    calc rt (BinOp l o r) = Raise (KeyError (opclass_name (BinCls o))) /\
    calc rt (UnaryOp u a) = Raise (KeyError (opclass_name (UnCls u))).
Proof.
  intros rt. unfold calc. cbn [_eval].
  rewrite (disallowed_binop_entry rt o Ho), (disallowed_unop_entry rt u Hu).
  split; reflexivity.
Qed.

Lemma disallowed_operator_fails_first_witness :
  allowed_binop Mod = false /\ allowed_unop UAdd = false /\
  forall rt,
    calc rt (BinOp (BinOp (num 1) Div (num 0)) Mod (Name "x"))
      = Raise (KeyError (opclass_name (BinCls Mod))) /\
    calc rt (UnaryOp UAdd (num 3)) = Raise (KeyError (opclass_name (UnCls UAdd))).
Proof.
  split; [reflexivity |]. split; [reflexivity |].
  apply (disallowed_operator_fails_first
           (BinOp (num 1) Div (num 0)) (Name "x") (num 3) Mod UAdd); reflexivity.
Defined.

(** X2: with an operator of the table, the operands are evaluated from
    left to right and the first failure is the failure of the whole: an
    error of the left operand is raised whatever the right operand is, and
    an error of the right operand is raised when the left one has a
    value. *)
Theorem binop_first_error_wins (l r : expr) (o : operator)
    (Ho : allowed_binop o = true) :
  forall rt,
    match _eval rt l with
    | Raise x => calc rt (BinOp l o r) = Raise x
    | Ok _ =>
        match _eval rt r with
        | Raise y => calc rt (BinOp l o r) = Raise y
        | Ok _ => True
        end
    end.
Proof.
  intros rt. destruct (allowed_binop_entry rt o Ho) as (f & Hf & _).
  unfold calc. cbn [_eval]. rewrite Hf. cbn [mbind result_bind].
  destruct (_eval rt l) as [a | x]; [| reflexivity].
  destruct (_eval rt r) as [b | y]; [exact I | reflexivity].
Qed.

Lemma binop_first_error_wins_witness :
  allowed_binop Add = true /\
  forall rt,
    match _eval rt (BinOp (num 1) Div (num 0)) with
    | Raise x => calc rt (BinOp (BinOp (num 1) Div (num 0)) Add (Name "x")) = Raise x
    | Ok _ =>
        match _eval rt (Name "x") with
        | Raise y => calc rt (BinOp (BinOp (num 1) Div (num 0)) Add (Name "x")) = Raise y
        | Ok _ => True
        end
    end.
Proof.
  split; [reflexivity |].
  apply (binop_first_error_wins (BinOp (num 1) Div (num 0)) (Name "x") Add). reflexivity.
Defined.

(** X3: negating twice changes nothing: [calc] gives the same result,
    value or error, for ["-(-e)"] as for ["e"]. *)
Theorem double_negation (e : expr) :
  forall rt, calc rt (UnaryOp USub (UnaryOp USub e)) = calc rt e.
Proof.
  intros rt. unfold calc. cbn [_eval]. rewrite getitem_usub. cbn [mbind result_bind].
  destruct (_eval rt e) as [[n | x | c] | err]; cbn [mbind result_bind call1 op_neg to_float].
  - rewrite Z.opp_involutive. reflexivity.
  - rewrite float_opp_involutive. reflexivity.
  - reflexivity.
  - reflexivity.
Qed.

(** X4: dividing by an integer expression whose value is zero raises
    [ZeroDivisionError] for every [int] or [float] numerator; no infinity
    and no NaN is returned.  An error of the numerator comes first. *)
Theorem division_by_zero (l r : expr) (Hr : int_value r = Some 0) :
  forall rt,
    match _eval rt l with
    | Ok (VInt _) | Ok (VFloat _) => calc rt (BinOp l Div r) = Raise ZeroDivisionError
    | Ok (VComplex _) => True
    | Raise x => calc rt (BinOp l Div r) = Raise x
    end.
Proof.
  intros rt. unfold calc. cbn [_eval]. rewrite getitem_div, (eval_int_value rt r 0 Hr).
  cbn [mbind result_bind].
  destruct (_eval rt l) as [[n | x | c] | err]; cbn [mbind result_bind call2];
    first [exact I | reflexivity].
Qed.

Lemma division_by_zero_witness :
  int_value (BinOp (num 2) Sub (num 2)) = Some 0 /\
  forall rt,
    match _eval rt (num 1) with
    | Ok (VInt _) | Ok (VFloat _) =>
        calc rt (BinOp (num 1) Div (BinOp (num 2) Sub (num 2))) = Raise ZeroDivisionError
    | Ok (VComplex _) => True
    | Raise x => calc rt (BinOp (num 1) Div (BinOp (num 2) Sub (num 2))) = Raise x
    end.
Proof.
  split; [reflexivity |].
  apply (division_by_zero (num 1) (BinOp (num 2) Sub (num 2))). reflexivity.
Defined.

(** X5: an imaginary literal passes the test for a number, but an
    expression with an imaginary literal among its operands is never given
    a value: the evaluation fails, or its complex result is refused by the
    conversion to [float]. *)
Theorem imaginary_literal_never_returns (e : expr) (H : contains_imag e = true) :
  forall rt, raises (calc rt e) /\
             (forall c, _eval rt e = Ok (VComplex c) -> calc rt e = Raise TypeError).
Proof.
  intros rt. split.
  - unfold calc. destruct (imag_is_complex rt e H) as [[x ->] | [c ->]];
      eexists; reflexivity.
  - intros c Hc. unfold calc. rewrite Hc. reflexivity.
Qed.

Lemma imaginary_literal_never_returns_witness :
  contains_imag e_neg_2j = true /\
  forall rt, raises (calc rt e_neg_2j) /\
             (forall c, _eval rt e_neg_2j = Ok (VComplex c) ->
                        calc rt e_neg_2j = Raise TypeError).
Proof.
  split; [reflexivity | apply (imaginary_literal_never_returns e_neg_2j); reflexivity].
Defined.

End CalcMore.

(** ** More on the Maven wrappers *)

Module RunnerMore.
Import Runner Http Notions Samples MoreSamples.

Lemma str_or_self (s : string) : str_or (Some s) s = s.
Proof. destruct s; reflexivity. Qed.

Lemma maven_test_tool_run {doc : Type} (w : World doc) (test_filter : string) :
  maven_test_tool w test_filter = _run w (maven_cmd w test_filter) (Some (PROJECT_ROOT w)).
Proof.
  unfold maven_test_tool, maven_test, run_maven, maven_cmd, mvn_path.
  destruct test_filter; reflexivity.
Qed.

(** X6: [maven_test_tool] starts [cmd /c <mvn> -f <pom> [-Dtest=<filter>] test]
    in the project root, where [<mvn>] is what the search path gives for
    [mvn] and [mvn] itself when it gives nothing; the [-Dtest] argument is
    there exactly when the filter is not empty.  The result carries that
    command line joined by spaces, the absolute project root, the exit code
    and the two tails. *)
Theorem maven_test_tool_command {doc : Type} (w : World doc) (test_filter : string) :
  maven_test_tool w test_filter =
    (proc ← subprocess_run w (maven_cmd w test_filter) (PROJECT_ROOT w);
     Ok {| command := join_spaces (maven_cmd w test_filter);
           cwd := abspath w (PROJECT_ROOT w);
           returncode := proc_returncode proc;
           stdout_tail := last_chars 2000 (str_or (proc_stdout proc) "");
           stderr_tail := last_chars 2000 (str_or (proc_stderr proc) "") |}) /\
  length (maven_cmd w test_filter) = (if bool_decide (test_filter = "") then 6 else 7)%nat /\
  last (maven_cmd w test_filter) = Some "test".
Proof.
  split.
  { rewrite maven_test_tool_run. unfold _run. rewrite !str_or_self. reflexivity. }
  split; [destruct test_filter; reflexivity |].
  destruct test_filter; reflexivity.
Qed.

(** X7: the route [POST /maven/test] does what the tool does: without a
    body, with an empty body, without a [test_filter] in the body or with
    an empty one it runs all tests, and with a filter it runs the tool on
    that filter. *)
Theorem api_maven_test_is_the_tool {doc : Type} (w : World doc)
    (payload : option (gmap string string)) :
  api_maven_test w payload =
    maven_test_tool w (default "" (payload ≫= fun body => body !! "test_filter")) /\
  api_maven_test w None = maven_test_tool w "" /\
  api_maven_test w (Some ∅) = maven_test_tool w "" /\
  (forall body, body !! "test_filter" = None ->
                api_maven_test w (Some body) = maven_test_tool w "").
Proof.
  assert (Hget : forall body : gmap string string,
             (if bool_decide (body = ∅) then ∅ else body) !! "test_filter"
             = body !! "test_filter").
  { intros body. destruct (decide (body = ∅)) as [-> | Hne].
    - rewrite bool_decide_eq_true_2 by reflexivity. reflexivity.
    - rewrite bool_decide_eq_false_2 by assumption. reflexivity. }
  assert (Hmain : forall p, api_maven_test w p =
                    maven_test_tool w (default "" (p ≫= fun body => body !! "test_filter"))).
  { intros [body |]; unfold api_maven_test; cbn [mbind option_bind default].
    - rewrite Hget. unfold maven_test_tool, maven_test, run_maven.
      destruct (body !! "test_filter") as [[| c f] |]; reflexivity.
    - rewrite lookup_empty. reflexivity. }
  split; [apply Hmain |].
  split; [reflexivity |].
  split; [reflexivity |].
  intros body Hb. rewrite Hmain. cbn [mbind option_bind]. rewrite Hb. reflexivity.
Qed.

End RunnerMore.

(** ** More on the coverage aggregation *)

Module CoverageMore.
Import PyNum Runner Xml Coverage Spec Samples Notions MoreSamples CoverageFacts.

(** *** Counters that cannot be read *)

Lemma add_to_unreadable counters t field c inner old :
  counters !! t = Some inner -> inner !! field = Some old ->
  is_int (attrib c !! field) = false ->
  raises (add_to counters t field c).
Proof.
  intros Ht Hf Hi. unfold add_to.
  rewrite (getitem_some _ _ _ Ht). cbn [mbind result_bind].
  rewrite (getitem_some _ _ _ Hf). cbn [mbind result_bind].
  unfold getitem, is_int in *.
  destruct (attrib c !! field) as [text |]; [| eexists; reflexivity].
  cbn [mbind result_bind].
  destruct (int_of_str text) as [n | e]; [discriminate | eexists; reflexivity].
Qed.

Lemma add_to_readable counters t field c inner old :
  counters !! t = Some inner -> inner !! field = Some old ->
  is_int (attrib c !! field) = true ->
  exists n, add_to counters t field c = Ok (<[t := <[field := old + n]> inner]> counters).
Proof.
  intros Ht Hf Hi. apply is_int_parsed in Hi as (text & n & Ha & Hn). exists n.
  unfold add_to.
  rewrite (getitem_some _ _ _ Ht). cbn [mbind result_bind].
  rewrite (getitem_some _ _ _ Hf). cbn [mbind result_bind].
  rewrite (getitem_some _ _ _ Ha). cbn [mbind result_bind].
  rewrite Hn. reflexivity.
Qed.

Lemma count_step_unreadable lc lm bc bm c :
  readable_counter c = false -> raises (count_step (counters_of lc lm bc bm) c).
Proof.
  intros Hr. unfold readable_counter in Hr. unfold count_step.
  destruct (attrib c !! "type") as [t |] eqn:Et.
  2:{ unfold getitem at 1. rewrite Et. eexists. reflexivity. }
  rewrite (getitem_some _ _ _ Et). cbn [mbind result_bind].
  destruct (decide (t = "LINE")) as [-> | Hl]; [| destruct (decide (t = "BRANCH")) as [-> | Hb]].
  - cbn in Hr. rewrite bool_decide_eq_true_2 by (eexists; apply counters_of_line).
    apply andb_false_iff in Hr.
    destruct (is_int (attrib c !! "covered")) eqn:Ec.
    + destruct Hr as [Hr | Hr]; [discriminate |].
      destruct (add_to_readable _ "LINE" "covered" c _ lc
                  (counters_of_line lc lm bc bm) (tally_covered lc lm) Ec) as [n ->].
      cbn [mbind result_bind].
      apply (add_to_unreadable _ "LINE" "missed" c (tally (lc + n) lm) lm);
        [reflexivity | reflexivity | exact Hr].
    + apply raises_bind.
      apply (add_to_unreadable _ "LINE" "covered" c (tally lc lm) lc);
        [reflexivity | reflexivity | exact Ec].
  - cbn in Hr. rewrite bool_decide_eq_true_2 by (eexists; apply counters_of_branch).
    apply andb_false_iff in Hr.
    destruct (is_int (attrib c !! "covered")) eqn:Ec.
    + destruct Hr as [Hr | Hr]; [discriminate |].
      destruct (add_to_readable _ "BRANCH" "covered" c _ bc
                  (counters_of_branch lc lm bc bm) (tally_covered bc bm) Ec) as [n ->].
      cbn [mbind result_bind].
      apply (add_to_unreadable _ "BRANCH" "missed" c (tally (bc + n) bm) bm);
        [reflexivity | reflexivity | exact Hr].
    + apply raises_bind.
      apply (add_to_unreadable _ "BRANCH" "covered" c (tally bc bm) bc);
        [reflexivity | reflexivity | exact Ec].
  - rewrite !(bool_decide_eq_false_2 (t = _)) in Hr by assumption. discriminate.
Qed.

Lemma aggregate_loop_unreadable (l : list Element) : forall lc lm bc bm,
  Forall (fun c => tag c = "counter") l ->
  forallb readable_counter l = false ->
  raises (for_each count_step l (counters_of lc lm bc bm)).
Proof.
  induction l as [| c l IH]; intros lc lm bc bm Htag Hr; [discriminate |].
  inversion Htag as [| ? ? Hc Hl]; subst.
  cbn [forallb] in Hr. cbn [for_each].
  destruct (readable_counter c) eqn:Ec.
  - rewrite (count_step_adds _ _ _ _ c Hc Ec). cbn [mbind result_bind].
    apply IH; assumption.
  - apply raises_bind. now apply count_step_unreadable.
Qed.

Lemma aggregate_readable (root : Element) :
  returns (aggregate root) ->
  forallb readable_counter (iterfind_desc "counter" root) = true.
Proof.
  intros [counters Hc].
  destruct (forallb readable_counter (iterfind_desc "counter" root)) eqn:E; [reflexivity |].
  exfalso. unfold aggregate in Hc. change counters0 with (counters_of 0 0 0 0) in Hc.
  apply (raises_not_ok _ counters
           (aggregate_loop_unreadable _ 0 0 0 0 (iterfind_desc_tag "counter" root) E)).
  exact Hc.
Qed.

(** X8: the aggregation returns exactly when every counter of the document
    can be read: every counter has a [type], and every [LINE] and [BRANCH]
    counter has integer [covered] and [missed].  Counters of other types
    are passed over whatever their counts are; one counter without a type,
    or one [LINE] or [BRANCH] counter with a count that is not an integer,
    makes the whole summary fail. *)
Theorem aggregate_returns_iff_readable (root : Element) :
  returns (aggregate root) <->
  forallb readable_counter (iterfind_desc "counter" root) = true.
Proof.
  split.
  - apply aggregate_readable.
  - intros H. rewrite (aggregate_totals root H). eexists. reflexivity.
Qed.

(** A counter of another type does not count and cannot hurt; a [LINE]
    counter without a number stops the summary. *)
Example other_type_passed_over :
  aggregate (el "report" [] [counter_other_type; counter "LINE" "8" "2"])
  = Ok (counters_of 8 2 0 0).
Proof. vm_compute. reflexivity. Qed.

Example unreadable_counter_stops :
  aggregate (el "report" [] [counter "LINE" "8" "2"; counter_not_a_number])
  = Raise invalid_literal.
Proof. vm_compute. reflexivity. Qed.

(** *** Reports put together *)

Lemma iterfind_desc_app (name t t1 t2 : string) (a a1 a2 : gmap string string)
    (cs1 cs2 : list Element) :
  iterfind_desc name (mkElement t a (cs1 ++ cs2)) =
  (iterfind_desc name (mkElement t1 a1 cs1) ++ iterfind_desc name (mkElement t2 a2 cs2))%list.
Proof.
  unfold iterfind_desc. cbn [children]. rewrite flat_map_app. apply List.filter_app.
Qed.

Lemma Ok_inj {A} (a b : A) : Ok a = Ok b -> a = b.
Proof. intros H. injection H. trivial. Qed.

Lemma counters_of_inj lc lm bc bm lc' lm' bc' bm' :
  counters_of lc lm bc bm = counters_of lc' lm' bc' bm' ->
  lc = lc' /\ lm = lm' /\ bc = bc' /\ bm = bm'.
Proof.
  intros H.
  assert (Hl : tally lc lm = tally lc' lm').
  { apply (f_equal (fun m => m !! "LINE")) in H. cbv beta in H.
    rewrite !counters_of_line in H. congruence. }
  assert (Hb : tally bc bm = tally bc' bm').
  { apply (f_equal (fun m => m !! "BRANCH")) in H. cbv beta in H.
    rewrite !counters_of_branch in H. congruence. }
  pose proof (f_equal (fun m => m !! "covered") Hl) as H1.
  pose proof (f_equal (fun m => m !! "missed") Hl) as H2.
  pose proof (f_equal (fun m => m !! "covered") Hb) as H3.
  pose proof (f_equal (fun m => m !! "missed") Hb) as H4.
  cbv beta in H1, H2, H3, H4.
  rewrite !tally_covered in H1, H3. rewrite !tally_missed in H2, H4.
  repeat split; congruence.
Qed.

Lemma aggregate_is_totals (root : Element) lc lm bc bm :
  aggregate root = Ok (counters_of lc lm bc bm) ->
  forallb readable_counter (iterfind_desc "counter" root) = true /\
  lc = total "LINE" "covered" root /\ lm = total "LINE" "missed" root /\
  bc = total "BRANCH" "covered" root /\ bm = total "BRANCH" "missed" root.
Proof.
  intros H.
  assert (Hr : forallb readable_counter (iterfind_desc "counter" root) = true).
  { apply aggregate_readable. eexists. exact H. }
  split; [exact Hr |].
  rewrite (aggregate_totals root Hr) in H. apply Ok_inj in H.
  apply counters_of_inj in H. intuition congruence.
Qed.

Lemma total_app kind field (t t1 t2 : string) (a a1 a2 : gmap string string)
    (cs1 cs2 : list Element) :
  total kind field (mkElement t a (cs1 ++ cs2)) =
  total kind field (mkElement t1 a1 cs1) + total kind field (mkElement t2 a2 cs2).
Proof.
  rewrite <- !total_is_sum. rewrite (iterfind_desc_app _ t t1 t2 a a1 a2).
  apply sum_of_app.
Qed.

(** X9: the counts are additive: when the children of a root are the
    children of two reports put one after the other, the aggregation adds
    up, kind by kind, what it gives on the two reports.  The tag and the
    attributes of a root play no part. *)
Theorem aggregate_additive (t t1 t2 : string) (a a1 a2 : gmap string string)
    (cs1 cs2 : list Element) (lc1 lm1 bc1 bm1 lc2 lm2 bc2 bm2 : Z)
    (H1 : aggregate (mkElement t1 a1 cs1) = Ok (counters_of lc1 lm1 bc1 bm1))
    (H2 : aggregate (mkElement t2 a2 cs2) = Ok (counters_of lc2 lm2 bc2 bm2)) :
  aggregate (mkElement t a (cs1 ++ cs2)) =
  Ok (counters_of (lc1 + lc2) (lm1 + lm2) (bc1 + bc2) (bm1 + bm2)).
Proof.
  apply aggregate_is_totals in H1 as (Hr1 & -> & -> & -> & ->).
  apply aggregate_is_totals in H2 as (Hr2 & -> & -> & -> & ->).
  rewrite aggregate_totals.
  - rewrite !(total_app _ _ t t1 t2 a a1 a2). reflexivity.
  - rewrite (iterfind_desc_app _ t t1 t2 a a1 a2), forallb_app, Hr1, Hr2. reflexivity.
Qed.

Lemma aggregate_additive_witness :
  aggregate (mkElement "report" ∅ package_a) = Ok (counters_of 14 6 1 3) /\
  aggregate (mkElement "group" ∅ package_b) = Ok (counters_of 7 3 0 0) /\
  aggregate (mkElement "report" ∅ (package_a ++ package_b)) =
    Ok (counters_of (14 + 7) (6 + 3) (1 + 0) (3 + 0)).
Proof.
  split; [vm_compute; reflexivity |]. split; [vm_compute; reflexivity |].
  apply (aggregate_additive "report" "report" "group" ∅ ∅ ∅ package_a package_b);
    vm_compute; reflexivity.
Defined.

Lemma collect_app {A B} (f : A -> result B) (l1 l2 : list A) :
  collect f (l1 ++ l2) =
  b1 ← collect f l1; b2 ← collect f l2; Ok (b1 ++ b2)%list.
Proof.
  induction l1 as [| x l1 IH]; cbn [collect app].
  - cbn [mbind result_bind]. destruct (collect f l2); reflexivity.
  - destruct (f x) as [b | e]; cbn [mbind result_bind]; [| reflexivity].
    rewrite IH. destruct (collect f l1) as [b1 | e]; cbn [mbind result_bind]; [| reflexivity].
    destruct (collect f l2); reflexivity.
Qed.

Lemma uncovered_classes_collect (w : World Element) (root : Element) (threshold : float)
    (low : list ClassCoverage) :
  fs w (report_path w) = Parsed root ->
  uncovered_classes w threshold = Ok low ->
  exists entries,
    collect class_entry (iterfind_desc "class" root) = Ok entries /\
    low = List.filter (is_low threshold) entries.
Proof.
  intros Hfile H. unfold uncovered_classes in H. rewrite Hfile, class_loop in H.
  destruct (collect class_entry (iterfind_desc "class" root)) as [entries | e];
    cbn [mbind result_bind] in H; [| discriminate].
  injection H as <-. exists entries. split; reflexivity.
Qed.

(** X10: the list of classes is put together in the same way: for a root
    whose children are the children of two reports one after the other,
    [uncovered_classes] returns the list of the first report followed by
    the list of the second. *)
Theorem uncovered_classes_concat (w1 w2 w : World Element) (t t1 t2 : string)
    (a a1 a2 : gmap string string) (cs1 cs2 : list Element) (threshold : float)
    (low1 low2 : list ClassCoverage)
    (Hf1 : fs w1 (report_path w1) = Parsed (mkElement t1 a1 cs1))
    (Hf2 : fs w2 (report_path w2) = Parsed (mkElement t2 a2 cs2))
    (Hf : fs w (report_path w) = Parsed (mkElement t a (cs1 ++ cs2)))
    (H1 : uncovered_classes w1 threshold = Ok low1)
    (H2 : uncovered_classes w2 threshold = Ok low2) :
  uncovered_classes w threshold = Ok (low1 ++ low2)%list.
Proof.
  destruct (uncovered_classes_collect w1 _ threshold low1 Hf1 H1) as (es1 & Hc1 & ->).
  destruct (uncovered_classes_collect w2 _ threshold low2 Hf2 H2) as (es2 & Hc2 & ->).
  rewrite <- List.filter_app.
  apply (uncovered_classes_filter w (mkElement t a (cs1 ++ cs2))); [exact Hf |].
  rewrite (iterfind_desc_app _ t t1 t2 a a1 a2), collect_app, Hc1, Hc2. reflexivity.
Qed.

Lemma uncovered_classes_concat_witness :
  fs (world build_ok (Parsed (mkElement "report" ∅ package_a)))
     (report_path (world build_ok (Parsed (mkElement "report" ∅ package_a))))
    = Parsed (mkElement "report" ∅ package_a) /\
  fs (world build_ok (Parsed (mkElement "report" ∅ package_b)))
     (report_path (world build_ok (Parsed (mkElement "report" ∅ package_b))))
    = Parsed (mkElement "report" ∅ package_b) /\
  fs (world build_ok (Parsed (mkElement "report" ∅ (package_a ++ package_b))))
     (report_path (world build_ok (Parsed (mkElement "report" ∅ (package_a ++ package_b)))))
    = Parsed (mkElement "report" ∅ (package_a ++ package_b)) /\
  uncovered_classes (world build_ok (Parsed (mkElement "report" ∅ package_a))) 80%float
    = Ok [{| class := "a.Half"; line_coverage_pct := 50 |}] /\
  uncovered_classes (world build_ok (Parsed (mkElement "report" ∅ package_b))) 80%float
    = Ok [{| class := "b.Some"; line_coverage_pct := 70 |}] /\
  uncovered_classes
    (world build_ok (Parsed (mkElement "report" ∅ (package_a ++ package_b)))) 80%float
    = Ok ([{| class := "a.Half"; line_coverage_pct := 50 |}]
          ++ [{| class := "b.Some"; line_coverage_pct := 70 |}])%list.
Proof.
  split; [reflexivity |]. split; [reflexivity |]. split; [reflexivity |].
  split; [vm_compute; reflexivity |]. split; [vm_compute; reflexivity |].
  apply (uncovered_classes_concat
           (world build_ok (Parsed (mkElement "report" ∅ package_a)))
           (world build_ok (Parsed (mkElement "report" ∅ package_b)))
           (world build_ok (Parsed (mkElement "report" ∅ (package_a ++ package_b))))
           "report" "report" "report" ∅ ∅ ∅ package_a package_b 80%float);
    first [reflexivity | vm_compute; reflexivity].
Defined.

(** *** The threshold *)

Lemma SFltb_leb_trans (a b c : spec_float) :
  SFltb a b = true -> SFleb b c = true -> SFltb a c = true.
Proof.
  unfold SFltb, SFleb, SFcompare.
  destruct a as [sa | sa | | sa ma ea], b as [sb | sb | | sb mb eb],
    c as [sc | sc | | sc mc ec];
    try destruct sa; try destruct sb; try destruct sc;
    try discriminate; try reflexivity;
    change (Pos.compare_cont Eq) with Pos.compare;
    destruct (Z.compare_spec ea eb), (Z.compare_spec eb ec), (Z.compare_spec ea ec);
    try discriminate; try reflexivity; try lia; subst;
    destruct (Pos.compare_spec ma mb), (Pos.compare_spec mb mc), (Pos.compare_spec ma mc);
    simpl; try discriminate; try reflexivity; try lia.
Qed.

Lemma ltb_leb_trans (x y z : float) :
  (x <? y)%float = true -> (y <=? z)%float = true -> (x <? z)%float = true.
Proof. rewrite !ltb_spec, leb_spec. apply SFltb_leb_trans. Qed.

Lemma filter_filter_weaker {A} (p q : A -> bool) (l : list A) :
  (forall x, p x = true -> q x = true) ->
  List.filter p (List.filter q l) = List.filter p l.
Proof.
  intros Hpq. induction l as [| x l IH]; [reflexivity |]. cbn [List.filter].
  destruct (q x) eqn:Eq.
  - cbn [List.filter]. rewrite IH. reflexivity.
  - destruct (p x) eqn:Ep; [| exact IH]. rewrite (Hpq x Ep) in Eq. discriminate.
Qed.

(** X11: raising the threshold never loses a class: when
    [uncovered_classes] returns for a threshold it returns for every
    threshold, and the list for a threshold is the list for any greater or
    equal threshold with the entries at or above the smaller threshold
    taken out, the order unchanged. *)
Theorem uncovered_classes_monotone (w : World Element) (root : Element)
    (t1 t2 : float) (low1 : list ClassCoverage)
    (Hfile : fs w (report_path w) = Parsed root)
    (Hle : (t1 <=? t2)%float = true)
    (H1 : uncovered_classes w t1 = Ok low1) :
  exists low2,
    uncovered_classes w t2 = Ok low2 /\
    low1 = List.filter (fun e => (line_coverage_pct e <? t1)%float) low2 /\
    (forall e, In e low1 -> In e low2).
Proof.
  destruct (uncovered_classes_collect w root t1 low1 Hfile H1) as (entries & Hc & ->).
  exists (List.filter (is_low t2) entries).
  assert (Himp : forall e, is_low t1 e = true -> is_low t2 e = true).
  { intros e He. unfold is_low in *. exact (ltb_leb_trans _ _ _ He Hle). }
  split; [exact (uncovered_classes_filter w root t2 entries Hfile Hc) |].
  split.
  - symmetry. apply (filter_filter_weaker (is_low t1) (is_low t2)). exact Himp.
  - intros e He. apply List.filter_In in He as [Hin He]. apply List.filter_In. auto.
Qed.

Lemma uncovered_classes_monotone_witness :
  fs (world build_ok (Parsed report_three_classes))
     (report_path (world build_ok (Parsed report_three_classes)))
    = Parsed report_three_classes /\
  (80 <=? 90)%float = true /\
  uncovered_classes (world build_ok (Parsed report_three_classes)) 80%float
    = Ok [{| class := "p.Low"; line_coverage_pct := 60 |}] /\
  exists low2,
    uncovered_classes (world build_ok (Parsed report_three_classes)) 90%float = Ok low2 /\
    [{| class := "p.Low"; line_coverage_pct := 60 |}]
      = List.filter (fun e => (line_coverage_pct e <? 80)%float) low2 /\
    (forall e, In e [{| class := "p.Low"; line_coverage_pct := 60 |}] -> In e low2).
Proof.
  split; [reflexivity |]. split; [reflexivity |]. split; [vm_compute; reflexivity |].
  apply (uncovered_classes_monotone (world build_ok (Parsed report_three_classes))
           report_three_classes 80%float 90%float);
    first [reflexivity | vm_compute; reflexivity].
Defined.

(** *** The entries *)

Lemma dotted_no_slash (s : string) : contains_char "/" (dotted s) = false.
Proof.
  induction s as [| c s IH]; [reflexivity |]. cbn [dotted contains_char].
  rewrite IH, orb_false_r. destruct (Ascii.eqb c "/") eqn:E; [reflexivity | exact E].
Qed.

Lemma dotted_length (s : string) : String.length (dotted s) = String.length s.
Proof. induction s as [| c s IH]; [reflexivity |]. cbn [dotted String.length]. now rewrite IH. Qed.

Lemma dotted_unchanged (s : string) : contains_char "/" s = false -> dotted s = s.
Proof.
  induction s as [| c s IH]; [reflexivity |]. cbn [dotted contains_char].
  intros H. apply orb_false_iff in H as [Hc Hs]. rewrite Hc, (IH Hs). reflexivity.
Qed.

Lemma collect_In_inv {A B} (f : A -> result B) (l : list A) (bs : list B) (b : B) :
  collect f l = Ok bs -> In b bs -> exists a, In a l /\ f a = Ok b.
Proof.
  revert bs. induction l as [| a l IH]; intros bs Hc Hb; cbn [collect] in Hc.
  - apply Ok_inj in Hc. subst bs. destruct Hb.
  - destruct (f a) as [b' |] eqn:Ea; cbn [mbind result_bind] in Hc; [| discriminate].
    destruct (collect f l) as [bs' |]; cbn [mbind result_bind] in Hc; [| discriminate].
    apply Ok_inj in Hc. subst bs. destruct Hb as [<- | Hb].
    + exists a. split; [left; reflexivity | exact Ea].
    + destruct (IH bs' eq_refl Hb) as (a' & Ha' & Hf). exists a'. split; [right |]; assumption.
Qed.

Lemma collect_length {A B} (f : A -> result B) (l : list A) (bs : list B) :
  collect f l = Ok bs -> length bs = length l.
Proof.
  revert bs. induction l as [| a l IH]; intros bs Hc; cbn [collect] in Hc.
  - apply Ok_inj in Hc. subst bs. reflexivity.
  - destruct (f a) as [b' |]; cbn [mbind result_bind] in Hc; [| discriminate].
    destruct (collect f l) as [bs' |]; cbn [mbind result_bind] in Hc; [| discriminate].
    apply Ok_inj in Hc. subst bs. cbn [length]. now rewrite (IH bs' eq_refl).
Qed.

Lemma class_entry_name (cls : Element) (e : ClassCoverage) :
  class_entry cls = Ok e ->
  exists raw, attrib cls !! "name" = Some raw /\ class e = dotted raw.
Proof.
  unfold class_entry, getitem at 1.
  destruct (attrib cls !! "name") as [raw |]; cbn [mbind result_bind]; [| discriminate].
  destruct (first_line_cov (iterfind_desc "counter" cls)) as [x |];
    cbn [mbind result_bind]; [| discriminate].
  intros H. apply Ok_inj in H. subst e. exists raw. split; reflexivity.
Qed.

(** X12: every entry [uncovered_classes] returns stands for a class element
    of the report: its name is the [name] of that element with every [/]
    turned into [.], so it has the same length and no [/] is left in it;
    a name without [/] is returned as it is.  There are never more entries
    than class elements. *)
Theorem uncovered_classes_entries (w : World Element) (root : Element)
    (threshold : float) (low : list ClassCoverage)
    (Hfile : fs w (report_path w) = Parsed root)
    (H : uncovered_classes w threshold = Ok low) :
  (forall e, In e low ->
     exists cls raw,
       In cls (iterfind_desc "class" root) /\
       attrib cls !! "name" = Some raw /\
       class e = dotted raw /\
       contains_char "/" (class e) = false /\
       String.length (class e) = String.length raw /\
       (contains_char "/" raw = false -> class e = raw)) /\
  (length low <= length (iterfind_desc "class" root))%nat.
Proof.
  destruct (uncovered_classes_collect w root threshold low Hfile H) as (entries & Hc & ->).
  split.
  - intros e He. apply List.filter_In in He as [He _].
    destruct (collect_In_inv _ _ _ _ Hc He) as (cls & Hcls & Hentry).
    destruct (class_entry_name cls e Hentry) as (raw & Hraw & Hname).
    exists cls, raw. rewrite Hname.
    repeat split; auto using dotted_no_slash, dotted_length, dotted_unchanged.
  - rewrite <- (collect_length _ _ _ Hc). apply List.filter_length_le.
Qed.

Lemma uncovered_classes_entries_witness :
  fs (world build_ok (Parsed report_three_classes))
     (report_path (world build_ok (Parsed report_three_classes)))
    = Parsed report_three_classes /\
  uncovered_classes (world build_ok (Parsed report_three_classes)) 80%float
    = Ok [{| class := "p.Low"; line_coverage_pct := 60 |}] /\
  ((forall e, In e [{| class := "p.Low"; line_coverage_pct := 60 |}] ->
      exists cls raw,
        In cls (iterfind_desc "class" report_three_classes) /\
        attrib cls !! "name" = Some raw /\
        class e = dotted raw /\
        contains_char "/" (class e) = false /\
        String.length (class e) = String.length raw /\
        (contains_char "/" raw = false -> class e = raw)) /\
   (length [{| class := "p.Low"; line_coverage_pct := 60 |}]
    <= length (iterfind_desc "class" report_three_classes))%nat).
Proof.
  split; [reflexivity |]. split; [vm_compute; reflexivity |].
  apply (uncovered_classes_entries (world build_ok (Parsed report_three_classes))
           report_three_classes 80%float);
    [reflexivity | vm_compute; reflexivity].
Defined.

(** *** The first line counter *)

Lemma first_line_cov_app (pre rest : list Element) :
  passed_over pre = true -> first_line_cov (pre ++ rest) = first_line_cov rest.
Proof.
  induction pre as [| c pre IH]; [reflexivity |].
  unfold passed_over. cbn [forallb app first_line_cov]. intros H.
  apply andb_true_iff in H as [Hc Hpre].
  destruct (attrib c !! "type") as [t |] eqn:Et; [| discriminate].
  rewrite (getitem_some _ _ _ Et). cbn [mbind result_bind].
  apply negb_true_iff in Hc. rewrite Hc. now apply IH.
Qed.

(** X13: the first counter of type [LINE] below a class decides its line
    coverage, and the search stops there: the counters after it are not
    read, so that neither their counts nor a missing [type] among them
    changes the entry. *)
Theorem first_line_counter_decides (cls c : Element) (raw : string)
    (pre post : list Element) (covered missed : Z)
    (Hname : attrib cls !! "name" = Some raw)
    (Hcounters : iterfind_desc "counter" cls = (pre ++ c :: post)%list)
    (Hpre : passed_over pre = true)
    (Hline : line_counter c covered missed) :
  class_entry cls =
    (line_cov ← percentage covered missed;
     Ok {| class := dotted raw; line_coverage_pct := line_cov |}).
Proof.
  destruct Hline as (Ht & (tc & Hc & Hnc) & (tm & Hm & Hnm)).
  unfold class_entry. rewrite (getitem_some _ _ _ Hname). cbn [mbind result_bind].
  rewrite Hcounters, (first_line_cov_app pre (c :: post) Hpre).
  cbn [first_line_cov].
  rewrite (getitem_some _ _ _ Ht). cbn [mbind result_bind].
  rewrite bool_decide_eq_true_2 by reflexivity.
  rewrite (getitem_some _ _ _ Hc). cbn [mbind result_bind]. rewrite Hnc.
  cbn [mbind result_bind].
  rewrite (getitem_some _ _ _ Hm). cbn [mbind result_bind]. rewrite Hnm.
  reflexivity.
Qed.

Lemma first_line_counter_decides_witness :
  attrib (el "class" [("name", "p/A")]
            [counter "INSTRUCTION" "3" "1"; counter "LINE" "3" "1";
             counter_not_a_number; el "counter" [] []]) !! "name" = Some "p/A" /\
  iterfind_desc "counter"
    (el "class" [("name", "p/A")]
       [counter "INSTRUCTION" "3" "1"; counter "LINE" "3" "1";
        counter_not_a_number; el "counter" [] []])
    = ([counter "INSTRUCTION" "3" "1"] ++ counter "LINE" "3" "1"
         :: [counter_not_a_number; el "counter" [] []])%list /\
  passed_over [counter "INSTRUCTION" "3" "1"] = true /\
  line_counter (counter "LINE" "3" "1") 3 1 /\
  class_entry (el "class" [("name", "p/A")]
                 [counter "INSTRUCTION" "3" "1"; counter "LINE" "3" "1";
                  counter_not_a_number; el "counter" [] []]) =
    (line_cov ← percentage 3 1;
     Ok {| class := dotted "p/A"; line_coverage_pct := line_cov |}).
Proof.
  assert (Hl : line_counter (counter "LINE" "3" "1") 3 1).
  { split; [reflexivity |]. split; eexists; (split; [reflexivity | reflexivity]). }
  split; [reflexivity |]. split; [reflexivity |]. split; [reflexivity |].
  split; [exact Hl |].
  apply (first_line_counter_decides
           (el "class" [("name", "p/A")]
              [counter "INSTRUCTION" "3" "1"; counter "LINE" "3" "1";
               counter_not_a_number; el "counter" [] []])
           (counter "LINE" "3" "1") "p/A"
           [counter "INSTRUCTION" "3" "1"] [counter_not_a_number; el "counter" [] []] 3 1);
    first [reflexivity | exact Hl].
Defined.

(** *** The order of the elements *)

Lemma sum_of_counters_perm f (name : string) (cs1 cs2 : list Element) :
  Permutation cs1 cs2 ->
  sum_of f (List.filter (fun d => bool_decide (tag d = name)) (flat_map iter cs1)) =
  sum_of f (List.filter (fun d => bool_decide (tag d = name)) (flat_map iter cs2)).
Proof.
  induction 1 as [| x l l' _ IH | x y l | l l' l'' _ IH1 _ IH2].
  - reflexivity.
  - cbn [flat_map]. rewrite !List.filter_app, !sum_of_app, IH. reflexivity.
  - cbn [flat_map]. rewrite !List.filter_app, !sum_of_app. lia.
  - congruence.
Qed.

Lemma readable_counters_perm (name : string) (cs1 cs2 : list Element) :
  Permutation cs1 cs2 ->
  forallb readable_counter
    (List.filter (fun d => bool_decide (tag d = name)) (flat_map iter cs1)) =
  forallb readable_counter
    (List.filter (fun d => bool_decide (tag d = name)) (flat_map iter cs2)).
Proof.
  induction 1 as [| x l l' _ IH | x y l | l l' l'' _ IH1 _ IH2].
  - reflexivity.
  - cbn [flat_map]. rewrite !List.filter_app, !forallb_app, IH. reflexivity.
  - cbn [flat_map]. rewrite !List.filter_app, !forallb_app.
    rewrite !andb_assoc. f_equal. apply andb_comm.
  - congruence.
Qed.

(** X14: the aggregation does not depend on the order of the elements:
    when the children of the root are put in another order, it returns the
    same counts.  (The list of [uncovered_classes] follows the order of the
    document.) *)
Theorem aggregate_order_free (t : string) (a : gmap string string)
    (cs1 cs2 : list Element) (counters : gmap string (gmap string Z))
    (Hperm : Permutation cs1 cs2)
    (H : aggregate (mkElement t a cs1) = Ok counters) :
  aggregate (mkElement t a cs2) = Ok counters.
Proof.
  assert (Hr : forallb readable_counter (iterfind_desc "counter" (mkElement t a cs1)) = true).
  { apply aggregate_readable. eexists. exact H. }
  rewrite (aggregate_totals _ Hr) in H. apply Ok_inj in H. subst counters.
  rewrite aggregate_totals.
  - rewrite <- !total_is_sum. unfold iterfind_desc. cbn [children].
    rewrite !(sum_of_counters_perm _ "counter" cs1 cs2 Hperm). reflexivity.
  - unfold iterfind_desc in *. cbn [children] in *.
    rewrite <- (readable_counters_perm "counter" cs1 cs2 Hperm). exact Hr.
Qed.

Lemma aggregate_order_free_witness :
  Permutation (package_a ++ package_b)%list (package_b ++ package_a)%list /\
  aggregate (mkElement "report" ∅ (package_a ++ package_b)) = Ok (counters_of 21 9 1 3) /\
  aggregate (mkElement "report" ∅ (package_b ++ package_a)) = Ok (counters_of 21 9 1 3).
Proof.
  assert (Hp : Permutation (package_a ++ package_b)%list (package_b ++ package_a)%list)
    by apply Permutation_app_comm.
  split; [exact Hp |]. split; [vm_compute; reflexivity |].
  apply (aggregate_order_free "report" ∅ (package_a ++ package_b) (package_b ++ package_a)
           (counters_of 21 9 1 3) Hp).
  vm_compute. reflexivity.
Defined.

End CoverageMore.

(** ** The evaluator against the reference arithmetic *)

Module CalcReference.
Import PyNum Calc Grammar Spec Samples Notions MoreSamples Reference ReferenceSamples
  CalcFacts CalcMore.

#[local] Arguments Calc.getitem : simpl never.







Section WithRuntime.
Context (rt : NumLib).









End WithRuntime.



End CalcReference.
